(** * JSON-RPC request handler (jsonrpc.js, rpcdemo.js): a shallow embedding

    The development follows the source file by file:

    - [JS]       the fragment of JavaScript the handler relies on: data
                 values, truthiness, [typeof], [ToString], [JSON.stringify];
    - [Registry] the [methods] object handed to the constructor;
    - [Rpc]      the [RpcHandler] object, its six prototype members and the
                 constructor, written in a state-and-exception monad whose
                 state holds the object's fields and the calls issued on the
                 two http objects;
    - [Demo]     rpcdemo.js: the [insert] method and the [rpcMethods] object;
    - [Server]   rpcdemo.js: the listener given to [http.createServer].

    Platform functions that the repository only calls ([JSON.parse], the
    string-to-number conversion behind [!=]) are section variables; an
    executable reader for a fragment of JSON instantiates the first one in
    the concrete runs. *)

From Stdlib Require Import String Ascii List ZArith Bool Lia.
From Stdlib Require Import Numbers.DecimalString.
Import ListNotations.

Local Open Scope string_scope.
Local Open Scope Z_scope.

Set Warnings "-register-all".

(* ===================================================================== *)
(** * The JavaScript fragment *)
(* ===================================================================== *)

Module JS.

(** Data values.  [VNum] holds the integer-valued numbers of the safe range
    (their decimal printing is the plain digit string); strings are
    sequences of code units below 256.  [VObj ps] is the plain object whose
    own enumerable properties, in enumeration order, are [ps].  Functions
    are not data: they live in the registry (module [Registry]). *)
Inductive value : Type :=
| VUndefined
| VNull
| VBool (b : bool)
| VNum (n : Z)
| VStr (s : string)
| VArr (elems : list value)
| VObj (props : list (string * value)).

(** What a [throw] carries. *)
Inductive exn : Type :=
| TypeError                      (* a TypeError raised by the engine *)
| ReferenceError (ident : string) (* an unresolvable identifier *)
| SyntaxError                    (* raised by JSON.parse *)
| Error (message : string)       (* new Error(message) *)
| Thrown (v : value).            (* any other thrown value *)

(** ToBoolean. *)
Definition truthy (v : value) : bool :=
  match v with
  | VUndefined | VNull => false
  | VBool b => b
  | VNum n => negb (n =? 0)
  | VStr s => negb (String.eqb s EmptyString)
  | VArr _ | VObj _ => true
  end.

(** The [typeof] operator on data. *)
Definition typeof (v : value) : string :=
  match v with
  | VUndefined => "undefined"
  | VNull => "object"
  | VBool _ => "boolean"
  | VNum _ => "number"
  | VStr _ => "string"
  | VArr _ | VObj _ => "object"
  end.

Definition Z_to_string (n : Z) : string :=
  NilEmpty.string_of_int (Z.to_int n).

Fixpoint join (sep : string) (l : list string) : string :=
  match l with
  | [] => EmptyString
  | [s] => s
  | s :: rest => s ++ sep ++ join sep rest
  end.

(** Own-property lookup in a property list. *)
Fixpoint assoc {A : Type} (k : string) (ps : list (string * A)) : option A :=
  match ps with
  | [] => None
  | (k', a) :: rest => if String.eqb k k' then Some a else assoc k rest
  end.

(** ToString, as applied to a computed property key ([o[k]], [k in o]).
    An object converts through its [toString] member.  A plain object
    inherits the one of Object.prototype, which answers
    ["[object Object]"]; an own member [toString] hides it, and as data
    it is not callable, so that the conversion falls back on [valueOf],
    gets no primitive from it either, and raises a TypeError.  An array
    joins its elements with commas, each converted in turn (a failure of
    one is the array's), [null] and [undefined] printing as nothing.
    [None] stands for the TypeError, the only way the conversion fails. *)
Fixpoint to_string (v : value) : option string :=
  match v with
  | VUndefined => Some "undefined"
  | VNull => Some "null"
  | VBool b => Some (if b then "true" else "false")
  | VNum n => Some (Z_to_string n)
  | VStr s => Some s
  | VArr elems =>
      match
        (fix items (l : list value) : option (list string) :=
           match l with
           | [] => Some []
           | e :: rest =>
               match match e with
                     | VUndefined | VNull => Some EmptyString
                     | _ => to_string e
                     end with
               | None => None
               | Some s =>
                   match items rest with
                   | None => None
                   | Some ss => Some (s :: ss)
                   end
               end
           end) elems
      with
      | None => None
      | Some ss => Some (join "," ss)
      end
  | VObj props =>
      match assoc "toString" props with
      | Some _ => None
      | None => Some "[object Object]"
      end
  end.

(** [v.k] for the three names the handler reads from the decoded body
    ([method], [params], [id]); none of them is a member of a built-in
    prototype, so only own properties count.  Reading a property of [null]
    or [undefined] is a TypeError. *)
Definition get (v : value) (k : string) : exn + value :=
  match v with
  | VUndefined | VNull => inl TypeError
  | VObj ps => inr (match assoc k ps with Some x => x | None => VUndefined end)
  | _ => inr VUndefined
  end.

(** [k in v], again for names outside the built-in prototypes.  The right
    operand must be an object. *)
Definition has (k : string) (v : value) : exn + bool :=
  match v with
  | VObj ps => inr (match assoc k ps with Some _ => true | None => false end)
  | VArr _ => inr false
  | _ => inl TypeError
  end.

(** ** JSON.stringify *)

Definition dq : string := String (ascii_of_nat 34) EmptyString.
Definition backslash : string := String (ascii_of_nat 92) EmptyString.

Definition hex_digit (n : nat) : ascii :=
  ascii_of_nat (if Nat.ltb n 10 then 48 + n else 87 + n).

(** One code unit inside a JSON string literal. *)
Definition escape_char (c : ascii) : string :=
  let n := nat_of_ascii c in
  if Nat.eqb n 34 then backslash ++ dq
  else if Nat.eqb n 92 then backslash ++ backslash
  else if Nat.eqb n 8 then backslash ++ "b"
  else if Nat.eqb n 9 then backslash ++ "t"
  else if Nat.eqb n 10 then backslash ++ "n"
  else if Nat.eqb n 12 then backslash ++ "f"
  else if Nat.eqb n 13 then backslash ++ "r"
  else if Nat.ltb n 32 then
    backslash ++ "u00"
      ++ String (hex_digit (Nat.div n 16))
           (String (hex_digit (Nat.modulo n 16)) EmptyString)
  else String c EmptyString.

Fixpoint escape (s : string) : string :=
  match s with
  | EmptyString => EmptyString
  | String c rest => escape_char c ++ escape rest
  end.

Definition quote (s : string) : string := dq ++ escape s ++ dq.

(** [JSON.stringify v]: [None] stands for the result [undefined].  A
    property whose value is [undefined] is left out of an object; an
    [undefined] array element prints as [null]. *)
Fixpoint stringify (v : value) : option string :=
  match v with
  | VUndefined => None
  | VNull => Some "null"
  | VBool b => Some (if b then "true" else "false")
  | VNum n => Some (Z_to_string n)
  | VStr s => Some (quote s)
  | VArr elems =>
      Some ("[" ++ join ","
                     (map (fun e => match stringify e with
                                    | Some s => s
                                    | None => "null"
                                    end) elems)
                ++ "]")
  | VObj props =>
      Some ("{" ++ join ","
                     ((fix members (ps : list (string * value)) : list string :=
                         match ps with
                         | [] => []
                         | (k, x) :: rest =>
                             match stringify x with
                             | Some s => (quote k ++ ":" ++ s) :: members rest
                             | None => members rest
                             end
                         end) props)
                ++ "}")
  end.

(** [JSON.stringify] of an object literal always yields a string. *)
Definition stringify_object (props : list (string * value)) : string :=
  match stringify (VObj props) with
  | Some s => s
  | None => EmptyString
  end.

End JS.

Import JS.


(* ===================================================================== *)
(** * The [methods] object *)
(* ===================================================================== *)

Module Registry.

(** What a method does with the handler object it receives, as far as the
    handler can tell: the member calls [rpc.response(x)] and [rpc.error(m)]
    it evaluates, in order, and how it ends.  Both members return
    [undefined], so what follows a call does not depend on it. *)
Inductive script : Type :=
| Return
| Throw (e : exn)
| CallResponse (result : value) (next : script)
| CallError (message : value) (next : script).

(** The fields of the handler object a method can read. *)
Record rpc_view : Type := {
  view_json : value;
  view_id : option value;
  view_debug : bool
}.

(** [function (rpc, args) { ... }] *)
Definition method : Type := rpc_view -> value -> script.

(** What a property of the registry may hold. *)
Inductive entry : Type :=
| EData (v : value)
| EFun (f : method)
| EObj (props : list (string * entry)).

(** The fourth constructor argument: a primitive, or a plain object (an
    object literal, as in rpcdemo.js) with own properties [props]. *)
Inductive registry : Type :=
| RegUndefined
| RegNull
| RegBool (b : bool)
| RegNum (n : Z)
| RegStr (s : string)
| RegObj (props : list (string * entry)).

Definition typeof_registry (r : registry) : string :=
  match r with
  | RegUndefined => "undefined"
  | RegNull => "object"
  | RegBool _ => "boolean"
  | RegNum _ => "number"
  | RegStr _ => "string"
  | RegObj _ => "object"
  end.

Definition truthy_registry (r : registry) : bool :=
  match r with
  | RegUndefined | RegNull => false
  | RegBool b => b
  | RegNum n => negb (n =? 0)
  | RegStr s => negb (String.eqb s EmptyString)
  | RegObj _ => true
  end.

(** The function-valued members every plain object inherits from
    Object.prototype. *)
Definition Object_prototype_functions : list string :=
  [ "constructor"; "toString"; "toLocaleString"; "valueOf";
    "hasOwnProperty"; "isPrototypeOf"; "propertyIsEnumerable";
    "__defineGetter__"; "__defineSetter__";
    "__lookupGetter__"; "__lookupSetter__" ].

(** The result of [methods[k]]: an own property, an inherited function,
    the inherited accessor [__proto__] (whose value is Object.prototype),
    or [undefined]. *)
Inductive property : Type :=
| Own (e : entry)
| InheritedFunction
| InheritedPrototype
| Absent.

Definition lookup (k : string) (props : list (string * entry)) : property :=
  match assoc k props with
  | Some e => Own e
  | None =>
      if existsb (String.eqb k) Object_prototype_functions then InheritedFunction
      else if String.eqb k "__proto__" then InheritedPrototype
      else Absent
  end.

(** [k in methods] *)
Definition has_property (k : string) (props : list (string * entry)) : bool :=
  match lookup k props with
  | Absent => false
  | _ => true
  end.

(** [typeof methods[k]] *)
Definition typeof_property (p : property) : string :=
  match p with
  | Own (EData v) => typeof v
  | Own (EFun _) => "function"
  | Own (EObj _) => "object"
  | InheritedFunction => "function"
  | InheritedPrototype => "object"
  | Absent => "undefined"
  end.

(** The callee of [p.method(...)]: only an object with an own
    function-valued property [method] has one.  Everywhere else the
    expression raises a TypeError, either reading a property of
    [undefined]/[null] or calling something that is not a function. *)
Definition method_member (p : property) : option method :=
  match p with
  | Own (EObj props) =>
      match assoc "method" props with
      | Some (EFun f) => Some f
      | _ => None
      end
  | _ => None
  end.

End Registry.

Import Registry.

(* ===================================================================== *)
(** * The handler object (jsonrpc.js) *)
(* ===================================================================== *)

Module Rpc.

(** An argument given for [request] or [response]: an http object
    ([Stream]), or some data value in its place.  The http object is taken
    to accept every call the handler makes on it and to record it,
    whatever it has received before.  What an object does that refuses a
    call (in current versions of node an http.ServerResponse throws on a
    [writeHead] that follows another) is not modelled: a statement about
    calls that follow the first [end] is a statement about recording
    objects. *)
Inductive handle : Type :=
| Stream
| NotAStream (v : value).

Definition truthy_handle (h : handle) : bool :=
  match h with
  | Stream => true
  | NotAStream v => truthy v
  end.

(** Calls received by the http.ServerRequest object. *)
Inductive request_call : Type :=
| SetEncoding (encoding : string)
| AddListener (event : string).

(** Calls received by the http.ServerResponse object; [End None] is
    [end()] without a body. *)
Inductive response_call : Type :=
| WriteHead (status : Z) (headers : list (string * string))
| End (body : option string).

(** The fields of one RpcHandler object ([this_id = None]: the object has
    no property [id]), together with the calls it has issued so far on its
    two http objects. *)
Record state : Type := {
  this_request : handle;
  this_response : handle;
  this_methods : registry;
  this_debug : bool;
  this_json : value;
  this_id : option value;
  request_calls : list request_call;
  response_calls : list response_call
}.

Definition set_json (j : value) (s : state) : state :=
  {| this_request := this_request s; this_response := this_response s;
     this_methods := this_methods s; this_debug := this_debug s;
     this_json := j; this_id := this_id s;
     request_calls := request_calls s; response_calls := response_calls s |}.

Definition set_id (i : value) (s : state) : state :=
  {| this_request := this_request s; this_response := this_response s;
     this_methods := this_methods s; this_debug := this_debug s;
     this_json := this_json s; this_id := Some i;
     request_calls := request_calls s; response_calls := response_calls s |}.

Definition log_request (c : request_call) (s : state) : state :=
  {| this_request := this_request s; this_response := this_response s;
     this_methods := this_methods s; this_debug := this_debug s;
     this_json := this_json s; this_id := this_id s;
     request_calls := request_calls s ++ [c];
     response_calls := response_calls s |}.

Definition log_response (c : response_call) (s : state) : state :=
  {| this_request := this_request s; this_response := this_response s;
     this_methods := this_methods s; this_debug := this_debug s;
     this_json := this_json s; this_id := this_id s;
     request_calls := request_calls s;
     response_calls := response_calls s ++ [c] |}.

(** ** Computations: state plus exceptions *)

Inductive outcome (A : Type) : Type :=
| Returned (a : A) (s : state)
| Raised (e : exn) (s : state).

Arguments Returned {A} a s.
Arguments Raised {A} e s.

Definition M (A : Type) : Type := state -> outcome A.

Definition ret {A : Type} (a : A) : M A := fun s => Returned a s.

Definition bind {A B : Type} (c : M A) (k : A -> M B) : M B :=
  fun s => match c s with
           | Returned a s' => k a s'
           | Raised e s' => Raised e s'
           end.

Definition throw {A : Type} (e : exn) : M A := fun s => Raised e s.

(** [try { c } catch (e) { h e }] *)
Definition try_catch {A : Type} (c : M A) (h : exn -> M A) : M A :=
  fun s => match c s with
           | Returned a s' => Returned a s'
           | Raised e s' => h e s'
           end.

Definition lift {A : Type} (r : exn + A) : M A :=
  match r with
  | inl e => throw e
  | inr a => ret a
  end.

(** A conversion that fails with a TypeError. *)
Definition convert {A : Type} (r : option A) : M A :=
  match r with
  | None => throw TypeError
  | Some a => ret a
  end.

Definition read {A : Type} (f : state -> A) : M A := fun s => Returned (f s) s.

Definition modify (f : state -> state) : M unit := fun s => Returned tt (f s).

Definition final_state {A : Type} (o : outcome A) : state :=
  match o with
  | Returned _ s => s
  | Raised _ s => s
  end.

(** The exception an outcome carries, if any. *)
Definition raised {A : Type} (o : outcome A) : option exn :=
  match o with
  | Returned _ _ => None
  | Raised e _ => Some e
  end.

Declare Scope rpc_scope.
Delimit Scope rpc_scope with rpc.
Notation "x <- c ;; k" := (bind c (fun x => k))
  (at level 61, c at next level, right associativity) : rpc_scope.
Notation "c ;; k" := (bind c (fun _ => k))
  (at level 61, right associativity) : rpc_scope.
Local Open Scope rpc_scope.

(** A method call on the request / response field.  Only an http object
    has the method; on anything else the call is a TypeError.  The http
    object takes the call and records it. *)
Definition call_request (c : request_call) : M unit :=
  fun s => match this_request s with
           | Stream => Returned tt (log_request c s)
           | NotAStream _ => Raised TypeError s
           end.

Definition call_response (c : response_call) : M unit :=
  fun s => match this_response s with
           | Stream => Returned tt (log_response c s)
           | NotAStream _ => Raised TypeError s
           end.

(** ** Member resolution on the object

    The constructor assigns five own properties; the request callback may
    add [id].  Everything else is looked up on [RpcHandler.prototype]. *)
Definition own_properties (s : state) : list string :=
  [ "request"; "response"; "methods"; "debug"; "json" ]
    ++ match this_id s with Some _ => [ "id" ] | None => [] end.

Definition prototype_members : list string :=
  [ "error"; "response"; "_run"; "_output"; "_handleRequest";
    "_handleRequestBody" ].

Inductive resolution : Type :=
| OwnProperty
| PrototypeMember
| Unresolved.

Definition resolve (s : state) (name : string) : resolution :=
  if existsb (String.eqb name) (own_properties s) then OwnProperty
  else if existsb (String.eqb name) prototype_members then PrototypeMember
  else Unresolved.

(** [obj.name(...)] where [body] is what the prototype member [name] does
    with the arguments at hand.  An own property hides the prototype
    member of the same name, and none of the own properties holds a
    function; an unresolved name evaluates to [undefined].  Calling either
    is a TypeError. *)
Definition invoke {A : Type} (name : string) (body : M A) : M A :=
  fun s => match resolve s name with
           | PrototypeMember => body s
           | OwnProperty | Unresolved => Raised TypeError s
           end.

Definition json_headers : list (string * string) :=
  [ ("Content-Type", "application/json") ].

(** ** RpcHandler.prototype._output *)
Definition _output (result error : value) : M bool :=
  call_response (WriteHead (if truthy error then 500 else 200) json_headers) ;;
  id <- read this_id ;;
  match id with
  | None | Some VNull =>
      call_response (End None) ;;
      ret false
  | Some i =>
      call_response
        (End (Some (stringify_object
                      [ ("result", if truthy error then VNull else result);
                        ("error", if truthy error then error else VNull);
                        ("id", i) ]))) ;;
      ret true
  end.

(** ** RpcHandler.prototype.error *)
Definition error (error : value) : M unit :=
  invoke "_output" (_output (VBool false) error) ;;
  ret tt.

(** ** RpcHandler.prototype.response *)
Definition response (result : value) : M unit :=
  invoke "_output" (_output result (VBool false)) ;;
  ret tt.

(** Running a method body against the handler object [rpc]: each member
    call goes through the object's own resolution. *)
Fixpoint run_script (p : script) : M unit :=
  match p with
  | Return => ret tt
  | Throw e => throw e
  | CallResponse x next => invoke "response" (response x) ;; run_script next
  | CallError m next => invoke "error" (error m) ;; run_script next
  end.

Definition view (s : state) : rpc_view :=
  {| view_json := this_json s; view_id := this_id s; view_debug := this_debug s |}.

(** The body of the [try] block:
    [this.methods[this.json].method(this, this.json.params)]. *)
Definition dispatch (props : list (string * entry)) : M unit :=
  json <- read this_json ;;
  key <- convert (to_string json) ;;
  match method_member (lookup key props) with
  | None => throw TypeError
  | Some f =>
      params <- lift (get json "params") ;;
      v <- read view ;;
      run_script (f v params)
  end.

(** ** RpcHandler.prototype._run

    In the [catch] block the identifier [rpcHandler] is evaluated first.
    It is a local variable of [_handleRequest]; [_run] has no binding for
    it, the module declares none, and nothing in the repository creates a
    global of that name: the evaluation raises a ReferenceError.

    The [in] test stands before the [try]: it first wants an object on its
    right, then converts its left operand to a property key, and a
    TypeError of that conversion leaves [_run]. *)
Definition _run : M unit :=
  methods <- read this_methods ;;
  if negb (truthy_registry methods) then invoke "error" (error (VStr "No methods"))
  else
    json <- read this_json ;;
    m <- lift (get json "method") ;;
    if negb (truthy m) then invoke "error" (error (VStr "Invalid request method"))
    else
      match methods with
      | RegObj props =>
          key <- convert (to_string m) ;;
          if negb (has_property key props)
             || negb (String.eqb (typeof_property (lookup key props))
                                 "function")
          then invoke "error" (error (VStr "Invalid request method"))
          else
            try_catch (dispatch props)
                      (fun e => throw (ReferenceError "rpcHandler"))
      | _ => throw TypeError   (* [in] applied to a primitive *)
      end.

(** The first two statements of the function passed by [_handleRequest] to
    the body reader: [rpcHandler.json = json; if ("id" in json)
    rpcHandler.id = json.id;]. *)
Definition receive (json : value) : M unit :=
  modify (set_json json) ;;
  b <- lift (has "id" json) ;;
  if b : bool then i <- lift (get json "id") ;; modify (set_id i) else ret tt.

(** The function passed by [_handleRequest] to the body reader. *)
Definition handleRequest_callback (json : value) : M unit :=
  receive json ;;
  invoke "_run" _run.

(** The two listeners installed on the request.  They share the local
    variable [content], which the event loop threads through them. *)
Record listeners : Type := {
  on_data : string -> string -> string;
  on_end : string -> M unit
}.

Section Platform.

(** [JSON.parse]: [None] when it throws a SyntaxError. *)
Variable JSON_parse : string -> option value.

(** ** RpcHandler.prototype._handleRequestBody *)
Definition _handleRequestBody (callback : value -> M unit) : M listeners :=
  call_request (AddListener "data") ;;
  call_request (AddListener "end") ;;
  ret {| on_data := fun content chunk => content ++ chunk;
         on_end := fun content =>
                     match JSON_parse content with
                     | Some json => callback json
                     | None => throw SyntaxError
                     end |}.

(** The members of [RpcHandler.prototype] that take a function: of the
    six members this is the only one. *)
Definition callback_members : list (string * ((value -> M unit) -> M listeners)) :=
  [ ("_handleRequestBody", _handleRequestBody) ].

(** [this.name(callback)], for a [name] that is either such a member or
    no property of the object at all: in the second case the callee is
    [undefined] and the call is a TypeError. *)
Definition invoke_with_callback (name : string) (callback : value -> M unit)
  : M listeners :=
  match assoc name callback_members with
  | Some member => invoke name (member callback)
  | None => throw TypeError
  end.

(** ** RpcHandler.prototype._handleRequest *)
Definition _handleRequest : M listeners :=
  call_request (SetEncoding "utf8") ;;
  invoke_with_callback "_handleBodyRequest" handleRequest_callback.

(** The object as the first five assignments of the constructor leave it. *)
Definition new_object (request response : handle) (methods : registry)
           (debug : value) : state :=
  {| this_request := request; this_response := response;
     this_methods := methods; this_debug := truthy debug;
     this_json := VBool false; this_id := None;
     request_calls := []; response_calls := [] |}.

(** ** new RpcHandler(request, response, methods, debug) *)
Definition RpcHandler (request response : handle) (methods : registry)
           (debug : value) : outcome listeners :=
  let this := new_object request response methods debug in
  if String.eqb (typeof_registry methods) "object"
     && truthy_handle request && truthy_handle response
  then invoke "_handleRequest" _handleRequest this
  else Raised (Error "Invalid params") this.

(** The request stream emits its chunks, then [end]. *)
Definition emit (chunks : list string) (l : listeners) : M unit :=
  on_end l (fold_left (on_data l) chunks EmptyString).

(** One http exchange as rpcdemo.js serves a POST: construct the handler,
    then let the request deliver its body to whatever listeners were
    installed. *)
Definition serve (methods : registry) (debug : value) (chunks : list string)
  : outcome unit :=
  match RpcHandler Stream Stream methods debug with
  | Returned l s => emit chunks l s
  | Raised e s => Raised e s
  end.

End Platform.

End Rpc.

(* ===================================================================== *)
(** * The demo server (rpcdemo.js) *)
(* ===================================================================== *)

Module Demo.

(** [args[i]] *)
Definition index (args : value) (i : nat) : exn + value :=
  match args with
  | VUndefined | VNull => inl TypeError
  | VArr elems => inr (nth i elems VUndefined)
  | VStr s =>
      inr (match String.get i s with
           | Some c => VStr (String c EmptyString)
           | None => VUndefined
           end)
  | VObj ps =>
      inr (match assoc (Z_to_string (Z.of_nat i)) ps with
           | Some x => x
           | None => VUndefined
           end)
  | VBool _ | VNum _ => inr VUndefined
  end.

Section Comparison.

(** ToNumber on strings: [None] when the result is NaN or not an integer,
    hence equal to no number of the model. *)
Variable ToNumber : string -> option Z.

Definition to_number (v : value) : option Z :=
  match v with
  | VNum n => Some n
  | VBool b => Some (if b then 1 else 0)
  | VStr s => ToNumber s
  | _ => None
  end.

(** ToPrimitive: [valueOf] of an array or a plain object gives the object
    back, so that the conversion goes on to [toString], and fails where
    that one fails. *)
Definition to_primitive (v : value) : option value :=
  match v with
  | VArr _ | VObj _ =>
      match to_string v with
      | None => None
      | Some s => Some (VStr s)
      end
  | _ => Some v
  end.

(** Equality of two primitives of which neither is [null] or
    [undefined]. *)
Definition primitive_eq (a b : value) : bool :=
  match a, b with
  | VStr x, VStr y => String.eqb x y
  | _, _ =>
      match to_number a, to_number b with
      | Some m, Some n => m =? n
      | _, _ => false
      end
  end.

(** [x == y] (the abstract equality comparison).  Two objects are equal
    only when they are the same object, which two different elements of
    one decoded body never are.  An object is converted only when it
    meets a string, a number or a boolean; [None] stands for the TypeError
    of a conversion that fails. *)
Definition loose_eq (x y : value) : option bool :=
  match x, y with
  | (VArr _ | VObj _), (VArr _ | VObj _) => Some false
  | (VUndefined | VNull), (VUndefined | VNull) => Some true
  | (VUndefined | VNull), _ | _, (VUndefined | VNull) => Some false
  | _, _ =>
      match to_primitive x with
      | None => None
      | Some a =>
          match to_primitive y with
          | None => None
          | Some b => Some (primitive_eq a b)
          end
      end
  end.

(** [rpcMethods.insert] *)
Definition insert : method := fun rpc args =>
  match index args 0 with
  | inl e => Throw e
  | inr a =>
      match index args 1 with
      | inl e => Throw e
      | inr b =>
          match loose_eq a b with
          | None => Throw TypeError
          | Some equal =>
              if negb equal
              then CallError (VStr "Params doesn't match!") Return
              else CallResponse (VStr "Params are OK!") Return
          end
      end
  end.

Definition rpcMethods : registry := RegObj [ ("insert", EFun insert) ].

End Comparison.

End Demo.

(* ===================================================================== *)
(** * A reader for JSON texts *)
(* ===================================================================== *)

(** An executable stand-in for [JSON.parse], used for the concrete bodies
    of the scenarios.  It reads the JSON grammar with integer number
    literals and the two-character escapes; it does not read fractions,
    exponents or [\u] escapes, and keeps object members in textual order. *)
Module JsonReader.

Definition is_ws (c : ascii) : bool :=
  let n := nat_of_ascii c in
  Nat.eqb n 32 || Nat.eqb n 9 || Nat.eqb n 10 || Nat.eqb n 13.

Fixpoint skip_ws (s : string) : string :=
  match s with
  | String c rest => if is_ws c then skip_ws rest else s
  | EmptyString => s
  end.

Definition is_digit (c : ascii) : bool :=
  let n := nat_of_ascii c in Nat.leb 48 n && Nat.leb n 57.

Fixpoint read_digits (acc : Z) (s : string) : Z * string :=
  match s with
  | String c rest =>
      if is_digit c
      then read_digits (10 * acc + Z.of_nat (nat_of_ascii c - 48)) rest
      else (acc, s)
  | EmptyString => (acc, s)
  end.

(** The characters that would continue a number past its integer part. *)
Definition continues_number (s : string) : bool :=
  match s with
  | String c _ =>
      let n := nat_of_ascii c in
      Nat.eqb n 46 || Nat.eqb n 101 || Nat.eqb n 69 || is_digit c
  | EmptyString => false
  end.

(** [0] or a non-zero digit followed by digits. *)
Definition read_natural (s : string) : option (Z * string) :=
  match s with
  | String c rest =>
      if Nat.eqb (nat_of_ascii c) 48
      then if continues_number rest then None else Some (0, rest)
      else if is_digit c
           then let (n, rest') := read_digits 0 s in
                if continues_number rest' then None else Some (n, rest')
           else None
  | EmptyString => None
  end.

Definition read_number (s : string) : option (Z * string) :=
  match s with
  | String c rest =>
      if Nat.eqb (nat_of_ascii c) 45
      then match read_natural rest with
           | Some (n, rest') => Some (- n, rest')
           | None => None
           end
      else read_natural s
  | EmptyString => None
  end.

(** The characters of a string literal, after its opening quote. *)
Fixpoint read_string (s : string) : option (string * string) :=
  match s with
  | EmptyString => None
  | String c rest =>
      let n := nat_of_ascii c in
      if Nat.eqb n 34 then Some (EmptyString, rest)
      else if Nat.eqb n 92 then
        match rest with
        | String e rest' =>
            let m := nat_of_ascii e in
            let unescaped :=
              if Nat.eqb m 34 then Some 34%nat
              else if Nat.eqb m 92 then Some 92%nat
              else if Nat.eqb m 47 then Some 47%nat
              else if Nat.eqb m 98 then Some 8%nat
              else if Nat.eqb m 102 then Some 12%nat
              else if Nat.eqb m 110 then Some 10%nat
              else if Nat.eqb m 114 then Some 13%nat
              else if Nat.eqb m 116 then Some 9%nat
              else None in
            match unescaped, read_string rest' with
            | Some u, Some (str, rest'') =>
                Some (String (ascii_of_nat u) str, rest'')
            | _, _ => None
            end
        | EmptyString => None
        end
      else if Nat.ltb n 32 then None
      else match read_string rest with
           | Some (str, rest') => Some (String c str, rest')
           | None => None
           end
  end.

Fixpoint strip_prefix (p s : string) : option string :=
  match p, s with
  | EmptyString, _ => Some s
  | String a p', String b s' => if Ascii.eqb a b then strip_prefix p' s' else None
  | String _ _, EmptyString => None
  end.

(** A later member replaces the value of an earlier one of the same name. *)
Fixpoint put (k : string) (v : value) (ps : list (string * value))
  : list (string * value) :=
  match ps with
  | [] => [ (k, v) ]
  | (k', v') :: rest =>
      if String.eqb k k' then (k', v) :: rest else (k', v') :: put k v rest
  end.

Fixpoint read_value (fuel : nat) (s : string) : option (value * string) :=
  match fuel with
  | O => None
  | S fuel' =>
      match skip_ws s with
      | EmptyString => None
      | String c rest as s' =>
          let n := nat_of_ascii c in
          if Nat.eqb n 34 then
            match read_string rest with
            | Some (str, rest') => Some (VStr str, rest')
            | None => None
            end
          else if Nat.eqb n 91 then
            match skip_ws rest with
            | String c' rest' =>
                if Nat.eqb (nat_of_ascii c') 93 then Some (VArr [], rest')
                else read_elements fuel' rest []
            | EmptyString => None
            end
          else if Nat.eqb n 123 then
            match skip_ws rest with
            | String c' rest' =>
                if Nat.eqb (nat_of_ascii c') 125 then Some (VObj [], rest')
                else read_members fuel' rest []
            | EmptyString => None
            end
          else
            match strip_prefix "null" s', strip_prefix "true" s',
                  strip_prefix "false" s' with
            | Some rest', _, _ => Some (VNull, rest')
            | _, Some rest', _ => Some (VBool true, rest')
            | _, _, Some rest' => Some (VBool false, rest')
            | None, None, None =>
                match read_number s' with
                | Some (z, rest') => Some (VNum z, rest')
                | None => None
                end
            end
      end
  end

with read_elements (fuel : nat) (s : string) (acc : list value)
  : option (value * string) :=
  match fuel with
  | O => None
  | S fuel' =>
      match read_value fuel' s with
      | Some (v, rest) =>
          match skip_ws rest with
          | String c rest' =>
              let n := nat_of_ascii c in
              if Nat.eqb n 44 then read_elements fuel' rest' (acc ++ [v])
              else if Nat.eqb n 93 then Some (VArr (acc ++ [v]), rest')
              else None
          | EmptyString => None
          end
      | None => None
      end
  end

with read_members (fuel : nat) (s : string) (acc : list (string * value))
  : option (value * string) :=
  match fuel with
  | O => None
  | S fuel' =>
      match skip_ws s with
      | String q rest =>
          if Nat.eqb (nat_of_ascii q) 34 then
            match read_string rest with
            | Some (k, rest1) =>
                match skip_ws rest1 with
                | String colon rest2 =>
                    if Nat.eqb (nat_of_ascii colon) 58 then
                      match read_value fuel' rest2 with
                      | Some (v, rest3) =>
                          match skip_ws rest3 with
                          | String c rest4 =>
                              let n := nat_of_ascii c in
                              if Nat.eqb n 44
                              then read_members fuel' rest4 (put k v acc)
                              else if Nat.eqb n 125
                                   then Some (VObj (put k v acc), rest4)
                                   else None
                          | EmptyString => None
                          end
                      | None => None
                      end
                    else None
                | EmptyString => None
                end
            | None => None
            end
          else None
      | EmptyString => None
      end
  end.

Definition json_parse (s : string) : option value :=
  match read_value (2 * String.length s + 2) s with
  | Some (v, rest) =>
      match skip_ws rest with
      | EmptyString => Some v
      | String _ _ => None
      end
  | None => None
  end.

(** Writes a JSON text with apostrophes in place of the double quotes. *)
Fixpoint text (s : string) : string :=
  match s with
  | EmptyString => EmptyString
  | String c rest =>
      String (if Nat.eqb (nat_of_ascii c) 39 then ascii_of_nat 34 else c) (text rest)
  end.

End JsonReader.



(* ===================================================================== *)
(** * Vocabulary of the statements *)
(* ===================================================================== *)

Module Wire.

Import Rpc JsonReader.
Local Open Scope rpc_scope.

(** The text [{"result":R,"error":E,"id":I}]. *)
Definition envelope_text (result error id : string) : string :=
  "{" ++ quote "result" ++ ":" ++ result ++ ","
      ++ quote "error" ++ ":" ++ error ++ ","
      ++ quote "id" ++ ":" ++ id ++ "}".

(** The body that goes with an id: none for a missing or [null] id. *)
Definition expected_body (id : option value) (result error : string)
  : option string :=
  match id with
  | None | Some VNull => None
  | Some i => option_map (envelope_text result error) (stringify i)
  end.

(** [envelope.method], [undefined] when the member is missing. *)
Definition method_of (ps : list (string * value)) : value :=
  match assoc "method" ps with
  | Some m => m
  | None => VUndefined
  end.

(** A call of one of the two public members. *)
Inductive finalizer : Type :=
| Respond (result : value)
| Fail (message : value).

Definition finalize (op : finalizer) : M unit :=
  match op with
  | Respond x => response x
  | Fail m => error m
  end.

Fixpoint finalize_all (ops : list finalizer) : M unit :=
  match ops with
  | [] => ret tt
  | op :: rest => finalize op ;; finalize_all rest
  end.

(** The two calls one finalizer issues on the response object of a
    handler whose id is [id]. *)
Definition writes_of (id : option value) (op : finalizer) : list response_call :=
  match op with
  | Respond x =>
      [ WriteHead 200 json_headers;
        End (match id with
             | None | Some VNull => None
             | Some i => Some (stringify_object
                                 [ ("result", x); ("error", VNull); ("id", i) ])
             end) ]
  | Fail m =>
      [ WriteHead (if truthy m then 500 else 200) json_headers;
        End (match id with
             | None | Some VNull => None
             | Some i =>
                 Some (stringify_object
                         [ ("result", if truthy m then VNull else VBool false);
                           ("error", if truthy m then m else VNull);
                           ("id", i) ])
             end) ]
  end.

Definition has_body (c : response_call) : bool :=
  match c with
  | End (Some _) => true
  | _ => false
  end.

(** The handler object of one exchange, as the constructor leaves it, with
    a body already decoded and its id taken over. *)
Definition context (methods : registry) (id : option value) : state :=
  {| this_request := Stream; this_response := Stream;
     this_methods := methods; this_debug := true;
     this_json := VBool false; this_id := id;
     request_calls := []; response_calls := [] |}.

(** [quiet s s']: from [s] to [s'] the handler still has no id, and
    whatever it sent to the response object carried no body. *)
Definition quiet (s s' : state) : Prop :=
  this_id s' = None
  /\ exists sent,
       response_calls s' = (response_calls s ++ sent)%list
       /\ Forall (fun c => has_body c = false) sent.


(** The response object takes every call made on it, whatever it has
    received before: the assumption of the statements about repeated
    answers.  [Stream] is the object that does. *)
Definition accepts_every_call (h : handle) : Prop := h = Stream.

(** A registry with one well-behaved method. *)
Definition ping : method := fun _ _ => CallResponse (VStr "pong") Return.

Definition ping_registry : registry := RegObj [ ("ping", EFun ping) ].

(** A registry whose method throws; the second one also holds an object
    under the key that [this.methods[this.json]] computes for a decoded
    object. *)
Definition boom : method := fun _ _ => Throw (Error "boom").

Definition boom_registry : registry := RegObj [ ("boom", EFun boom) ].

Definition boom_registry_reached : registry :=
  RegObj [ ("boom", EFun boom);
           ("[object Object]", EObj [ ("method", EFun boom) ]) ].

(** The bodies of the scenarios. *)
Definition insert_request : string :=
  text "{'jsonrpc':'2.0','method':'insert','params':['v','v'],'id':1}".

Definition insert_reply : string :=
  text "{'result':'Params are OK!','error':null,'id':1}".

Definition truncated_request : string :=
  text "{'jsonrpc':'2.0','method':'insert','id':1".

Definition boom_request : value :=
  VObj [ ("jsonrpc", VStr "2.0"); ("method", VStr "boom"); ("id", VNum 7) ].

(** The exchange along the path [_handleRequest] means to take: the
    member [_handleRequestBody] applied to the request callback, then the
    request delivering its body to the two listeners. *)
Definition read_and_dispatch (JSON_parse : string -> option value)
           (methods : registry) (debug : value) (chunks : list string)
  : outcome unit :=
  match _handleRequestBody JSON_parse handleRequest_callback
          (new_object Stream Stream methods debug) with
  | Returned l s => emit chunks l s
  | Raised e s => Raised e s
  end.

End Wire.

(* ===================================================================== *)
(** * The listener of the demo server (rpcdemo.js) *)
(* ===================================================================== *)

Module Server.

Import Rpc Demo.

(** What one http exchange leaves behind: the exception that left the
    listener, if any, and the calls received by the two http objects. *)
Record exchange : Type := {
  fault : option exn;
  to_request : list request_call;
  to_response : list response_call
}.

Definition of_outcome {A : Type} (o : outcome A) : exchange :=
  {| fault := raised o;
     to_request := request_calls (final_state o);
     to_response := response_calls (final_state o) |}.

Section Listener.

Variable JSON_parse : string -> option value.
Variable ToNumber : string -> option Z.

(** The function given to [http.createServer]; [http_method] is
    [request.method], [chunks] the body the request would deliver. *)
Definition server_listener (http_method : string) (chunks : list string)
  : exchange :=
  if String.eqb http_method "POST"
  then of_outcome (serve JSON_parse (rpcMethods ToNumber) (VBool true) chunks)
  else {| fault := None;
          to_request := [];
          to_response := [ End (Some "Hello world!") ] |}.

End Listener.

(** The decoded values that are not objects. *)
Definition is_primitive (v : value) : bool :=
  match v with
  | VArr _ | VObj _ => false
  | _ => true
  end.

(** [null] and [undefined]. *)
Definition is_nullish (v : value) : bool :=
  match v with
  | VUndefined | VNull => true
  | _ => false
  end.

(** The calls [error(m)] issues, for each message of a list in turn. *)
Definition failures (id : option value) (messages : list value)
  : list response_call :=
  flat_map (fun m => Wire.writes_of id (Wire.Fail m)) messages.

(** [only_failures s s']: from [s] to [s'] the handler kept its id and its
    response object, and all it sent is what [error] sends, for some
    messages in turn. *)
Definition only_failures (s s' : state) : Prop :=
  this_id s' = this_id s
  /\ this_response s' = this_response s
  /\ exists messages,
       response_calls s'
       = (response_calls s ++ failures (this_id s) messages)%list.

(** The two scripts [insert] ends with. *)
Definition params_ok : script := CallResponse (VStr "Params are OK!") Return.

Definition params_mismatch : script :=
  CallError (VStr "Params doesn't match!") Return.

End Server.

Import Rpc Demo JsonReader Wire Server.
Local Open Scope rpc_scope.
Local Open Scope list_scope.

(* ===================================================================== *)
(** * Basic facts *)
(* ===================================================================== *)

Example stringify_demo :
  stringify_object [("result", VStr "ok"); ("error", VNull); ("id", VNum (-12))]
  = text "{'result':'ok','error':null,'id':-12}".
Proof. vm_compute. reflexivity. Qed.

Example json_parse_demo :
  json_parse (text "{'jsonrpc':'2.0','method':'insert','params':['v','v'],'id':1}")
  = Some (VObj [ ("jsonrpc", VStr "2.0"); ("method", VStr "insert");
                 ("params", VArr [VStr "v"; VStr "v"]); ("id", VNum 1) ]).
Proof. vm_compute. reflexivity. Qed.

(** Resolution of a literal name: whether the object has an [id] or not,
    the tests compute. *)
Ltac resolve_by_cases :=
  unfold resolve, own_properties;
  match goal with
  | |- context [ this_id ?s ] => destruct (this_id s); reflexivity
  end.

Section Resolution.

Variable s : state.

Lemma resolve_output : resolve s "_output" = PrototypeMember.
Proof. resolve_by_cases. Qed.

Lemma resolve_error : resolve s "error" = PrototypeMember.
Proof. resolve_by_cases. Qed.

Lemma resolve_run : resolve s "_run" = PrototypeMember.
Proof. resolve_by_cases. Qed.

Lemma resolve_handleRequest : resolve s "_handleRequest" = PrototypeMember.
Proof. resolve_by_cases. Qed.

(** The own property [response] hides [RpcHandler.prototype.response]. *)
Lemma resolve_response : resolve s "response" = OwnProperty.
Proof. reflexivity. Qed.

(** No member is called [_handleBodyRequest]. *)
Lemma resolve_handleBodyRequest : resolve s "_handleBodyRequest" = Unresolved.
Proof. resolve_by_cases. Qed.

End Resolution.

Lemma invoke_output {A} (body : M A) s : invoke "_output" body s = body s.
Proof. unfold invoke. rewrite resolve_output. reflexivity. Qed.

Lemma invoke_error {A} (body : M A) s : invoke "error" body s = body s.
Proof. unfold invoke. rewrite resolve_error. reflexivity. Qed.

Lemma invoke_run {A} (body : M A) s : invoke "_run" body s = body s.
Proof. unfold invoke. rewrite resolve_run. reflexivity. Qed.

Lemma invoke_response {A} (body : M A) s :
  invoke "response" body s = Raised TypeError s.
Proof. reflexivity. Qed.

(** What [_output] does on a handler whose response object is an http
    object: one [writeHead], one [end]. *)
Lemma output_spec result err s :
  this_response s = Stream ->
  exists b,
    _output result err s
    = Returned b
        (log_response
           (End (match this_id s with
                 | None | Some VNull => None
                 | Some i =>
                     Some (stringify_object
                             [ ("result", if truthy err then VNull else result);
                               ("error", if truthy err then err else VNull);
                               ("id", i) ])
                 end))
           (log_response
              (WriteHead (if truthy err then 500 else 200) json_headers) s)).
Proof.
  intros Hs. unfold _output, bind, call_response, read, ret.
  rewrite Hs. cbn [this_response log_response this_id].
  destruct (this_id s) as [i|]; [destruct i|]; cbn; rewrite Hs; eauto.
Qed.

Lemma string_app_assoc (a b c : string) :
  ((a ++ b) ++ c = a ++ (b ++ c))%string.
Proof. induction a as [|x a IH]; cbn; [reflexivity | now rewrite IH]. Qed.

(** The serialized reply, as text, when all three members serialize. *)
Lemma stringify_object_envelope result err id sr se si :
  stringify result = Some sr ->
  stringify err = Some se ->
  stringify id = Some si ->
  stringify_object [ ("result", result); ("error", err); ("id", id) ]
  = envelope_text sr se si.
Proof.
  intros Hr He Hi. unfold stringify_object, envelope_text.
  cbn [stringify]. rewrite Hr, He, Hi. cbn [join].
  repeat rewrite string_app_assoc. reflexivity.
Qed.

Lemma finalize_spec op s :
  this_response s = Stream ->
  exists s',
    finalize op s = Returned tt s'
    /\ response_calls s' = response_calls s ++ writes_of (this_id s) op
    /\ this_response s' = Stream
    /\ this_id s' = this_id s.
Proof.
  intros Hs.
  destruct op as [x|m]; cbn [finalize]; unfold response, error, bind;
    rewrite invoke_output.
  - destruct (output_spec x (VBool false) s Hs) as [b ->].
    eexists; split; [reflexivity|].
    cbn. rewrite <- app_assoc. cbn. repeat split; try assumption.
  - destruct (output_spec (VBool false) m s Hs) as [b ->].
    eexists; split; [reflexivity|].
    cbn. rewrite <- app_assoc. cbn. repeat split; try assumption.
Qed.

(* ===================================================================== *)
(** * The constructor *)
(* ===================================================================== *)

(** C8 (as amended).  Construction contract.  Whenever [typeof methods] is not
    ["object"] (the constructor's test of the registry), or the request or
    the response argument is missing (or otherwise falsy), [new RpcHandler]
    throws [Error("Invalid params")] at once: no call has been issued on
    either http object. *)
Theorem C8_construction_contract :
  forall (JSON_parse : string -> option value)
         (request response : handle) (methods : registry) (debug : value),
    typeof_registry methods <> "object"
    \/ truthy_handle request = false
    \/ truthy_handle response = false ->
    exists s,
      RpcHandler JSON_parse request response methods debug
      = Raised (Error "Invalid params") s
      /\ request_calls s = []
      /\ response_calls s = [].
Proof.
  intros JSON_parse request response methods debug H.
  exists (new_object request response methods debug).
  split; [|split; reflexivity].
  unfold RpcHandler.
  destruct (String.eqb_spec (typeof_registry methods) "object") as [Hty|Hty];
    destruct (truthy_handle request) eqn:Hreq;
    destruct (truthy_handle response) eqn:Hres;
    cbn [andb]; try reflexivity.
  destruct H as [H|[H|H]]; [contradiction|discriminate|discriminate].
Qed.

Lemma C8_witness :
  typeof_registry (RegStr "insert") <> "object"
  /\ exists s,
       RpcHandler json_parse Stream Stream (RegStr "insert") (VBool true)
       = Raised (Error "Invalid params") s
       /\ request_calls s = []
       /\ response_calls s = [].
Proof.
  split.
  - cbn. discriminate.
  - apply C8_construction_contract. left. cbn. discriminate.
Defined.

(** C8, counterexample.  [null] is no mapping, yet the constructor's test
    lets it pass ([typeof null] is ["object"]): the construction is not
    refused with [Error("Invalid params")], and [setEncoding] has been
    called on the request by the time it ends. *)
Lemma C8_null_registry_is_not_refused :
  typeof_registry RegNull = "object"
  /\ raised (RpcHandler json_parse Stream Stream RegNull (VBool true))
     <> Some (Error "Invalid params")
  /\ request_calls
       (final_state (RpcHandler json_parse Stream Stream RegNull (VBool true)))
     = [ SetEncoding "utf8" ].
Proof.
  split; [reflexivity|]. split; [cbn; discriminate | reflexivity].
Qed.

(* ===================================================================== *)
(** * The two public members *)
(* ===================================================================== *)

(** C9.  A falsy error message (the empty string, [false], [null],
    [undefined], [0]) finalizes like a success: the status is 200, and when the handler has a
    (non-null) id the body is [{"result":false,"error":null,"id":...}].
    Nothing distinguishes [error(m)] from [response(false)]. *)
Theorem C9_falsy_error_is_success :
  forall (s : state) (m : value),
    truthy m = false ->
    this_response s = Stream ->
    error m s = response (VBool false) s
    /\ exists s' body,
         error m s = Returned tt s'
         /\ response_calls s'
            = response_calls s ++ [ WriteHead 200 json_headers; End body ]
         /\ (forall i si,
                this_id s = Some i -> i <> VNull -> stringify i = Some si ->
                body = Some (envelope_text "false" "null" si)).
Proof.
  intros s m Hm Hs. split.
  - unfold error, response, bind. rewrite !invoke_output.
    unfold _output, bind. rewrite Hm. reflexivity.
  - destruct (finalize_spec (Fail m) s Hs) as (s' & Hrun & Hcalls & _).
    cbn [finalize] in Hrun. cbn [writes_of] in Hcalls. rewrite Hm in Hcalls.
    eexists; eexists. split; [exact Hrun|]. split; [exact Hcalls|].
    intros i si Hid Hnull Hsi. rewrite Hid.
    rewrite (stringify_object_envelope (VBool false) VNull i
               "false" "null" si eq_refl eq_refl Hsi).
    destruct i; congruence.
Qed.

Lemma C9_witness :
  truthy (VStr EmptyString) = false
  /\ this_response (context RegNull (Some (VNum 1))) = Stream
  /\ (error (VStr EmptyString) (context RegNull (Some (VNum 1)))
      = response (VBool false) (context RegNull (Some (VNum 1)))
      /\ exists s' body,
           error (VStr EmptyString) (context RegNull (Some (VNum 1)))
           = Returned tt s'
           /\ response_calls s'
              = response_calls (context RegNull (Some (VNum 1)))
                  ++ [ WriteHead 200 json_headers; End body ]
           /\ (forall i si,
                  this_id (context RegNull (Some (VNum 1))) = Some i ->
                  i <> VNull -> stringify i = Some si ->
                  body = Some (envelope_text "false" "null" si))).
Proof.
  split; [reflexivity|]. split; [reflexivity|].
  apply C9_falsy_error_is_success; reflexivity.
Defined.

(** C4 (as amended).  The handler has no guard of its own: it keeps no
    record of having answered, and every call of [response] or [error]
    makes its own [writeHead] and [end] on the response object.  On a
    response object that accepts every call, [n] calls of the two members
    leave [n] pairs there; only the response object could refuse the
    second answer. *)
Theorem C4_every_finalizer_writes :
  forall (ops : list finalizer) (s : state),
    accepts_every_call (this_response s) ->
    exists s',
      finalize_all ops s = Returned tt s'
      /\ response_calls s'
         = response_calls s ++ flat_map (writes_of (this_id s)) ops
      /\ length (response_calls s')
         = (length (response_calls s) + 2 * length ops)%nat.
Proof.
  induction ops as [|op ops IH]; intros s Hs.
  - exists s. cbn. rewrite app_nil_r. repeat split. lia.
  - destruct (finalize_spec op s Hs) as (s1 & Hrun & Hcalls & Hs1 & Hid).
    destruct (IH s1 Hs1) as (s' & Hrest & Hcalls' & Hlen).
    exists s'. cbn [finalize_all]. unfold bind. rewrite Hrun.
    split; [exact Hrest|]. split.
    + rewrite Hcalls', Hcalls, Hid. cbn [flat_map].
      now rewrite <- app_assoc.
    + rewrite Hlen, Hcalls, length_app.
      destruct op; cbn [writes_of length]; lia.
Qed.

Lemma C4_witness :
  accepts_every_call (this_response (context RegNull (Some (VNum 1))))
  /\ exists s',
       finalize_all [ Fail (VStr "first"); Respond (VStr "second") ]
                    (context RegNull (Some (VNum 1)))
       = Returned tt s'
       /\ response_calls s'
          = response_calls (context RegNull (Some (VNum 1)))
              ++ flat_map (writes_of (this_id (context RegNull (Some (VNum 1)))))
                          [ Fail (VStr "first"); Respond (VStr "second") ]
       /\ length (response_calls s')
          = (length (response_calls (context RegNull (Some (VNum 1))))
             + 2 * length [ Fail (VStr "first"); Respond (VStr "second") ])%nat.
Proof.
  split; [reflexivity|].
  apply C4_every_finalizer_writes. reflexivity.
Defined.

(** C4, counterexample.  With a response object that records the calls
    made on it, a second call on a finalized handler writes a second
    status line and a second body. *)
Lemma C4_second_call_writes_again :
  response_calls
    (final_state (error (VStr "first") (context RegNull (Some (VNum 1)))))
  = [ WriteHead 500 json_headers;
      End (Some (text "{'result':null,'error':'first','id':1}")) ]
  /\ response_calls
       (final_state
          (response (VStr "second")
             (final_state
                (error (VStr "first") (context RegNull (Some (VNum 1)))))))
     = [ WriteHead 500 json_headers;
         End (Some (text "{'result':null,'error':'first','id':1}"));
         WriteHead 200 json_headers;
         End (Some (text "{'result':'second','error':null,'id':1}")) ].
Proof. split; vm_compute; reflexivity. Qed.

(** ** The success member *)

Lemma stringify_none v : stringify v = None -> v = VUndefined.
Proof. destruct v; cbn; congruence. Qed.

Lemma receive_with_id ps i s :
  assoc "id" ps = Some i ->
  receive (VObj ps) s = Returned tt (set_id i (set_json (VObj ps) s)).
Proof.
  intros Hid. unfold receive, bind, modify, lift, has, get, ret.
  rewrite Hid. reflexivity.
Qed.

Lemma receive_without_id json s :
  has "id" json = inr false ->
  receive json s = Returned tt (set_json json s).
Proof.
  intros Hid. unfold receive, bind, modify, lift, ret.
  rewrite Hid. reflexivity.
Qed.

(** C7 (as amended).  Once the decoded envelope carries an id, the member
    [response], called with a result [x] that [JSON.stringify] serializes,
    issues exactly [writeHead(200, ...)] and one [end]: with the body
    [{"result":x,"error":null,"id":id}] when the id is not [null], and
    without a body when it is. *)
Theorem C7_response_shape :
  forall (s : state) (ps : list (string * value)) (i x : value) (sx si : string),
    this_response s = Stream ->
    assoc "id" ps = Some i ->
    stringify i = Some si ->
    stringify x = Some sx ->
    exists s' body,
      (receive (VObj ps) ;; response x) s = Returned tt s'
      /\ response_calls s'
         = response_calls s ++ [ WriteHead 200 json_headers; End body ]
      /\ (i <> VNull -> body = Some (envelope_text sx "null" si))
      /\ (i = VNull -> body = None).
Proof.
  intros s ps i x sx si Hs Hid Hsi Hsx.
  unfold bind at 1. rewrite (receive_with_id ps i s Hid).
  destruct (finalize_spec (Respond x) (set_id i (set_json (VObj ps) s)) Hs)
    as (s' & Hrun & Hcalls & _).
  exists s'. eexists. split; [exact Hrun|]. split; [exact Hcalls|].
  cbn [set_id set_json this_id].
  rewrite (stringify_object_envelope x VNull i sx "null" si Hsx eq_refl Hsi).
  split.
  - intros Hnull. destruct i; congruence.
  - intros ->. reflexivity.
Qed.

Lemma C7_witness :
  this_response (context ping_registry None) = Stream
  /\ assoc "id" [ ("method", VStr "ping"); ("id", VNum 1) ] = Some (VNum 1)
  /\ stringify (VNum 1) = Some "1"
  /\ stringify (VStr "pong") = Some (text "'pong'")
  /\ exists s' body,
       (receive (VObj [ ("method", VStr "ping"); ("id", VNum 1) ]) ;;
        response (VStr "pong")) (context ping_registry None)
       = Returned tt s'
       /\ response_calls s'
          = response_calls (context ping_registry None)
              ++ [ WriteHead 200 json_headers; End body ]
       /\ (VNum 1 <> VNull
           -> body = Some (envelope_text (text "'pong'") "null" "1"))
       /\ (VNum 1 = VNull -> body = None).
Proof.
  split; [reflexivity|]. split; [reflexivity|].
  split; [reflexivity|]. split; [reflexivity|].
  apply (C7_response_shape _ _ (VNum 1)); reflexivity.
Defined.

(** C7, counterexamples.  An envelope whose id is [null] gets status 200
    and no body at all; a result [undefined] is dropped from the body. *)
Lemma C7_null_id_or_undefined_result :
  response_calls
    (final_state
       ((receive (VObj [ ("method", VStr "ping"); ("id", VNull) ]) ;;
         response (VStr "pong")) (context ping_registry None)))
  = [ WriteHead 200 json_headers; End None ]
  /\ response_calls
       (final_state
          ((receive (VObj [ ("method", VStr "ping"); ("id", VNum 1) ]) ;;
            response VUndefined) (context ping_registry None)))
     = [ WriteHead 200 json_headers;
         End (Some (text "{'error':null,'id':1}")) ].
Proof. split; vm_compute; reflexivity. Qed.

(* ===================================================================== *)
(** * Notifications *)
(* ===================================================================== *)

Lemma quiet_refl s : this_id s = None -> quiet s s.
Proof.
  intros H. split; [exact H|]. exists []. now rewrite app_nil_r.
Qed.

Lemma quiet_trans s1 s2 s3 : quiet s1 s2 -> quiet s2 s3 -> quiet s1 s3.
Proof.
  intros (_ & sent1 & E1 & F1) (Hid & sent2 & E2 & F2).
  split; [exact Hid|]. exists (sent1 ++ sent2). split.
  - now rewrite E2, E1, app_assoc.
  - apply Forall_app. now split.
Qed.

Lemma quiet_bind {A B} (c : M A) (k : A -> M B) s :
  quiet s (final_state (c s)) ->
  (forall a s1, c s = Returned a s1 -> quiet s1 (final_state (k a s1))) ->
  quiet s (final_state (bind c k s)).
Proof.
  intros Hc Hk. unfold bind. destruct (c s) as [a s1|e s1] eqn:E.
  - eapply quiet_trans; [exact Hc | now apply Hk].
  - exact Hc.
Qed.

Lemma quiet_preserves_id s s' : quiet s s' -> this_id s' = None.
Proof. now intros [H _]. Qed.

Lemma call_response_quiet c s :
  has_body c = false -> this_id s = None ->
  quiet s (final_state (call_response c s)).
Proof.
  intros Hc Hid. unfold call_response.
  destruct (this_response s); cbn [final_state].
  - split; [exact Hid|]. exists [c]. split; [reflexivity|].
    constructor; [exact Hc | constructor].
  - now apply quiet_refl.
Qed.

Lemma output_quiet result err s :
  this_id s = None -> quiet s (final_state (_output result err s)).
Proof.
  intros Hid. unfold _output.
  apply quiet_bind; [now apply call_response_quiet|].
  intros [] s1 E1.
  assert (H1 : this_id s1 = None).
  { unfold call_response in E1. destruct (this_response s); [|discriminate].
    injection E1 as <-. exact Hid. }
  unfold bind at 1, read. rewrite H1.
  apply quiet_bind; [now apply call_response_quiet|].
  intros [] s2 E2. apply quiet_refl.
  unfold call_response in E2. destruct (this_response s1); [|discriminate].
  injection E2 as <-. exact H1.
Qed.

Lemma invoke_quiet {A} name (body : M A) s :
  this_id s = None ->
  quiet s (final_state (body s)) ->
  quiet s (final_state (invoke name body s)).
Proof.
  intros Hid Hbody. unfold invoke.
  destruct (resolve s name); [now apply quiet_refl | exact Hbody | now apply quiet_refl].
Qed.

Lemma error_quiet m s :
  this_id s = None -> quiet s (final_state (error m s)).
Proof.
  intros Hid. unfold error. apply quiet_bind.
  - apply invoke_quiet; [exact Hid | now apply output_quiet].
  - intros b s1 E. apply quiet_refl.
    assert (H : quiet s (final_state (invoke "_output" (_output (VBool false) m) s))).
    { apply invoke_quiet; [exact Hid | now apply output_quiet]. }
    rewrite E in H. exact (quiet_preserves_id _ _ H).
Qed.

Lemma response_quiet x s :
  this_id s = None -> quiet s (final_state (response x s)).
Proof.
  intros Hid. unfold response. apply quiet_bind.
  - apply invoke_quiet; [exact Hid | now apply output_quiet].
  - intros b s1 E. apply quiet_refl.
    assert (H : quiet s (final_state (invoke "_output" (_output x (VBool false)) s))).
    { apply invoke_quiet; [exact Hid | now apply output_quiet]. }
    rewrite E in H. exact (quiet_preserves_id _ _ H).
Qed.

(** A computation that stays quiet, followed by one that does. *)
Lemma quiet_seq {A B} (c : M A) (k : A -> M B) s :
  this_id s = None ->
  (forall s0, this_id s0 = None -> quiet s0 (final_state (c s0))) ->
  (forall a s1, this_id s1 = None -> quiet s1 (final_state (k a s1))) ->
  quiet s (final_state (bind c k s)).
Proof.
  intros Hid Hc Hk. apply quiet_bind; [now apply Hc|].
  intros a s1 E. apply Hk.
  specialize (Hc s Hid). rewrite E in Hc. exact (quiet_preserves_id _ _ Hc).
Qed.

Lemma run_script_quiet p :
  forall s, this_id s = None -> quiet s (final_state (run_script p s)).
Proof.
  induction p as [|e|x next IH|m next IH]; intros s Hid; cbn [run_script].
  - now apply quiet_refl.
  - now apply quiet_refl.
  - apply quiet_seq; [exact Hid| |intros _; exact IH].
    intros s0 H0. apply invoke_quiet; [exact H0 | now apply response_quiet].
  - apply quiet_seq; [exact Hid| |intros _; exact IH].
    intros s0 H0. apply invoke_quiet; [exact H0 | now apply error_quiet].
Qed.

Lemma dispatch_quiet props s :
  this_id s = None -> quiet s (final_state (dispatch props s)).
Proof.
  intros Hid. unfold dispatch, bind at 1, read.
  unfold bind at 1, convert.
  destruct (to_string (this_json s)) as [key|]; cbn [throw ret];
    [|now apply quiet_refl].
  destruct (method_member _) as [f|]; [|now apply quiet_refl].
  unfold bind, lift.
  destruct (get (this_json s) "params") as [e|params]; cbn;
    [now apply quiet_refl | now apply run_script_quiet].
Qed.

Lemma run_quiet s :
  this_id s = None -> quiet s (final_state (_run s)).
Proof.
  intros Hid. unfold _run, bind at 1, read.
  destruct (truthy_registry (this_methods s)); cbn [negb].
  2:{ apply invoke_quiet; [exact Hid | now apply error_quiet]. }
  unfold bind at 1, read. unfold bind at 1, lift.
  destruct (get (this_json s) "method") as [e|m]; cbn [throw ret];
    [now apply quiet_refl|].
  destruct (truthy m); cbn [negb].
  2:{ apply invoke_quiet; [exact Hid | now apply error_quiet]. }
  destruct (this_methods s) as [| | | | |props]; try now apply quiet_refl.
  unfold bind at 1, convert.
  destruct (to_string m) as [key|]; cbn [throw ret];
    [|now apply quiet_refl].
  destruct (_ || _).
  - apply invoke_quiet; [exact Hid | now apply error_quiet].
  - unfold try_catch.
    pose proof (dispatch_quiet props s Hid) as H.
    destruct (dispatch props s); exact H.
Qed.

(** C5.  Notification semantics.  When the decoded envelope has no member
    [id], neither public member writes a body: [response] and [error] both
    send a status line and close the response with an empty [end()].  And
    whatever the request callback does with such an envelope, no call it
    issues on the response object carries a body. *)
Theorem C5_notification_no_body :
  forall (json : value) (s : state),
    this_id s = None ->
    this_response s = Stream ->
    has "id" json = inr false ->
    (forall x, exists s',
        (receive json ;; response x) s = Returned tt s'
        /\ response_calls s'
           = response_calls s ++ [ WriteHead 200 json_headers; End None ])
    /\ (forall m, exists s',
           (receive json ;; error m) s = Returned tt s'
           /\ response_calls s'
              = response_calls s
                  ++ [ WriteHead (if truthy m then 500 else 200) json_headers;
                       End None ])
    /\ exists sent,
         response_calls (final_state (handleRequest_callback json s))
         = response_calls s ++ sent
         /\ Forall (fun c => has_body c = false) sent.
Proof.
  intros json s Hid Hs Hjson.
  assert (Hid' : this_id (set_json json s) = None) by exact Hid.
  split; [|split].
  - intros x. unfold bind at 1. rewrite (receive_without_id json s Hjson).
    destruct (finalize_spec (Respond x) (set_json json s) Hs)
      as (s' & Hrun & Hcalls & _).
    exists s'. split; [exact Hrun|]. rewrite Hcalls.
    cbn [writes_of]. now rewrite Hid'.
  - intros m. unfold bind at 1. rewrite (receive_without_id json s Hjson).
    destruct (finalize_spec (Fail m) (set_json json s) Hs)
      as (s' & Hrun & Hcalls & _).
    exists s'. split; [exact Hrun|]. rewrite Hcalls.
    cbn [writes_of]. now rewrite Hid'.
  - unfold handleRequest_callback, bind.
    rewrite (receive_without_id json s Hjson).
    assert (H : quiet (set_json json s)
                      (final_state (invoke "_run" _run (set_json json s)))).
    { apply invoke_quiet; [exact Hid' | now apply run_quiet]. }
    destruct H as (_ & sent & E & F). exists sent. split; [exact E | exact F].
Qed.

Lemma C5_witness :
  this_id (context ping_registry None) = None
  /\ this_response (context ping_registry None) = Stream
  /\ has "id" (VObj [ ("method", VStr "ping") ]) = inr false
  /\ ((forall x, exists s',
          (receive (VObj [ ("method", VStr "ping") ]) ;; response x)
            (context ping_registry None) = Returned tt s'
          /\ response_calls s'
             = response_calls (context ping_registry None)
                 ++ [ WriteHead 200 json_headers; End None ])
      /\ (forall m, exists s',
             (receive (VObj [ ("method", VStr "ping") ]) ;; error m)
               (context ping_registry None) = Returned tt s'
             /\ response_calls s'
                = response_calls (context ping_registry None)
                    ++ [ WriteHead (if truthy m then 500 else 200) json_headers;
                         End None ])
      /\ exists sent,
           response_calls
             (final_state
                (handleRequest_callback (VObj [ ("method", VStr "ping") ])
                   (context ping_registry None)))
           = response_calls (context ping_registry None) ++ sent
           /\ Forall (fun c => has_body c = false) sent).
Proof.
  split; [reflexivity|]. split; [reflexivity|]. split; [reflexivity|].
  apply C5_notification_no_body; reflexivity.
Defined.

(* ===================================================================== *)
(** * Validation of the method name *)
(* ===================================================================== *)




Example invalid_method_body_text :
  expected_body (assoc "id" [ ("method", VStr "missing"); ("id", VNum 3) ])
                "null" (quote "Invalid request method")
  = Some (text "{'result':null,'error':'Invalid request method','id':3}").
Proof. vm_compute. reflexivity. Qed.


(* ===================================================================== *)
(** * Dispatch *)
(* ===================================================================== *)



(** A method can not reach [response] through the handler object. *)
Lemma script_response_fails x next s :
  run_script (CallResponse x next) s = Raised TypeError s.
Proof. reflexivity. Qed.

(** With an absent registry [_run] reports "No methods". *)
Lemma run_without_methods s :
  truthy_registry (this_methods s) = false ->
  _run s = error (VStr "No methods") s.
Proof.
  intros H. unfold _run, bind at 1, read. rewrite H. cbn [negb].
  now rewrite invoke_error.
Qed.

(** A body that [JSON.parse] rejects leaves the [end] listener with a
    SyntaxError. *)
Lemma emit_syntax_error JSON_parse callback chunks l s0 s :
  _handleRequestBody JSON_parse callback s0 = Returned l s ->
  JSON_parse (fold_left append chunks EmptyString) = None ->
  emit chunks l s = Raised SyntaxError s.
Proof.
  unfold _handleRequestBody, bind, call_request, ret.
  destruct (this_request s0) eqn:Hr; [|discriminate].
  cbn [log_request this_request]. rewrite Hr.
  intros E Hp. injection E as <- <-. unfold emit. cbn [on_end on_data].
  change (fun content chunk : string => (content ++ chunk)%string) with append.
  now rewrite Hp.
Qed.

(** The constructor, given http objects and a registry it accepts, fails
    in [_handleRequest]: after [setEncoding] it calls a member that does
    not exist. *)
Lemma constructor_fails JSON_parse methods debug :
  typeof_registry methods = "object" ->
  RpcHandler JSON_parse Stream Stream methods debug
  = Raised TypeError
      (log_request (SetEncoding "utf8")
         (new_object Stream Stream methods debug)).
Proof.
  intros H. unfold RpcHandler. rewrite H. reflexivity.
Qed.

(* ===================================================================== *)
(** * The scenarios, run *)
(* ===================================================================== *)

(** C1.  The [insert] scenario of rpcdemo.js, evaluated.  The exchange
    ends in the constructor with a TypeError ([_handleRequest] calls the
    missing member [_handleBodyRequest]); nothing reaches the response
    object, in particular not the reply [insert_reply] with status 200.
    Along the intended path (body reader installed, body delivered) the
    envelope passes the validation, the dispatch expression fails, and the
    [catch] block raises a ReferenceError, again with nothing sent.  And
    [insert] itself, run on the decoded parameters, calls [rpc.response],
    which the handler object resolves to its own field. *)
Theorem C1_insert_scenario_fails :
  forall ToNumber : string -> option Z,
    (raised (serve json_parse (rpcMethods ToNumber) (VBool true) [ insert_request ])
     = Some TypeError
     /\ request_calls
          (final_state
             (serve json_parse (rpcMethods ToNumber) (VBool true) [ insert_request ]))
        = [ SetEncoding "utf8" ]
     /\ response_calls
          (final_state
             (serve json_parse (rpcMethods ToNumber) (VBool true) [ insert_request ]))
        = []
     /\ response_calls
          (final_state
             (serve json_parse (rpcMethods ToNumber) (VBool true) [ insert_request ]))
        <> [ WriteHead 200 json_headers; End (Some insert_reply) ])
    /\ (raised (read_and_dispatch json_parse (rpcMethods ToNumber) (VBool true)
                  [ insert_request ])
        = Some (ReferenceError "rpcHandler")
        /\ response_calls
             (final_state
                (read_and_dispatch json_parse (rpcMethods ToNumber) (VBool true)
                   [ insert_request ]))
           = [])
    /\ (forall v,
           insert ToNumber v (VArr [ VStr "v"; VStr "v" ])
           = CallResponse (VStr "Params are OK!") Return)
    /\ (forall s,
           run_script (CallResponse (VStr "Params are OK!") Return) s
           = Raised TypeError s).
Proof.
  intros ToNumber.
  split; [|split; [|split]].
  - repeat split; try reflexivity. cbn. discriminate.
  - split; reflexivity.
  - intros v. reflexivity.
  - intros s. reflexivity.
Qed.

(** C2.  A method that throws, evaluated in both debug modes.  With the
    registry [{boom: function ...}] the envelope passes the validation,
    the dispatch expression raises a TypeError, and [_run] lets a
    ReferenceError out; with a registry that also has an object under
    ["[object Object]"] the method is invoked, raises [Error("boom")], and
    [_run] lets the same ReferenceError out.  No "Runtime error" answer is
    sent in either case. *)
Theorem C2_handler_fault_escapes :
  forall debug : value,
    (raised (handleRequest_callback boom_request
               (new_object Stream Stream boom_registry debug))
     = Some (ReferenceError "rpcHandler")
     /\ response_calls
          (final_state
             (handleRequest_callback boom_request
                (new_object Stream Stream boom_registry debug)))
        = [])
    /\ (raised (dispatch [ ("boom", EFun boom);
                           ("[object Object]", EObj [ ("method", EFun boom) ]) ]
                  (set_id (VNum 7)
                     (set_json boom_request
                        (new_object Stream Stream boom_registry_reached debug))))
        = Some (Error "boom")
        /\ raised (handleRequest_callback boom_request
                     (new_object Stream Stream boom_registry_reached debug))
           = Some (ReferenceError "rpcHandler")
        /\ response_calls
             (final_state
                (handleRequest_callback boom_request
                   (new_object Stream Stream boom_registry_reached debug)))
           = []).
Proof.
  intros debug. repeat split; reflexivity.
Qed.

(** C3.  A body that is not JSON, evaluated.  The exchange as served ends
    with the constructor's TypeError before the body is read.  Along the
    intended path [JSON.parse] throws inside the [end] listener and the
    SyntaxError leaves it: no status line, no body, no [end()]. *)
Theorem C3_malformed_body_raises :
  json_parse truncated_request = None
  /\ (raised (serve json_parse ping_registry (VBool true) [ truncated_request ])
      = Some TypeError
      /\ response_calls
           (final_state
              (serve json_parse ping_registry (VBool true) [ truncated_request ]))
         = [])
  /\ (raised (read_and_dispatch json_parse ping_registry (VBool true)
                [ truncated_request ])
      = Some SyntaxError
      /\ response_calls
           (final_state
              (read_and_dispatch json_parse ping_registry (VBool true)
                 [ truncated_request ]))
         = []).
Proof. repeat split; vm_compute; reflexivity. Qed.

(** C10.  Construction with [null] for the registry, evaluated.  The
    constructor's test accepts [null] and [_handleRequest] is entered, but
    it raises a TypeError right after [setEncoding]: the constructor still
    fails, the body is never read, and no "No methods" answer is sent. *)
Theorem C10_null_registry_never_reported :
  forall debug : value,
    typeof_registry RegNull = "object"
    /\ raised (RpcHandler json_parse Stream Stream RegNull debug) = Some TypeError
    /\ request_calls (final_state (RpcHandler json_parse Stream Stream RegNull debug))
       = [ SetEncoding "utf8" ]
    /\ response_calls (final_state (RpcHandler json_parse Stream Stream RegNull debug))
       = []
    /\ raised (serve json_parse RegNull debug [ insert_request ]) = Some TypeError
    /\ response_calls (final_state (serve json_parse RegNull debug [ insert_request ]))
       = [].
Proof.
  intros debug. repeat split; reflexivity.
Qed.

(** What [_run] does with a [null] registry once it is reached. *)
Example run_null_registry :
  response_calls
    (final_state
       (handleRequest_callback
          (VObj [ ("method", VStr "insert"); ("id", VNum 1) ])
          (context RegNull None)))
  = [ WriteHead 500 json_headers;
      End (Some (text "{'result':null,'error':'No methods','id':1}")) ].
Proof. vm_compute. reflexivity. Qed.

(** The member [response], applied directly, would send the reply the
    [insert] scenario expects. *)
Example response_sends_insert_reply :
  response_calls
    (final_state (response (VStr "Params are OK!") (context RegNull (Some (VNum 1)))))
  = [ WriteHead 200 json_headers; End (Some insert_reply) ].
Proof. vm_compute. reflexivity. Qed.

(* ===================================================================== *)
(** * Further properties of the handler *)
(* ===================================================================== *)

(** ** The constructor and the demo listener *)

(** X1.  The constructor never returns.  When its test accepts the arguments
    it fails with a TypeError in [_handleRequest], otherwise with
    [Error("Invalid params")]; in both cases the response object has
    received nothing, and the request object at most [setEncoding]. *)
Theorem constructor_never_returns :
  forall (JSON_parse : string -> option value)
         (request response : handle) (methods : registry) (debug : value),
    exists s,
      RpcHandler JSON_parse request response methods debug
      = Raised (if String.eqb (typeof_registry methods) "object"
                   && truthy_handle request && truthy_handle response
                then TypeError
                else Error "Invalid params") s
      /\ response_calls s = []
      /\ (request_calls s = [] \/ request_calls s = [ SetEncoding "utf8" ]).
Proof.
  intros JSON_parse request response methods debug. unfold RpcHandler.
  destruct (String.eqb (typeof_registry methods) "object"
            && truthy_handle request && truthy_handle response).
  - destruct request as [|v].
    + eexists. split; [reflexivity|]. split; [reflexivity|]. right. reflexivity.
    + eexists. split; [reflexivity|]. split; [reflexivity|]. left. reflexivity.
  - eexists. split; [reflexivity|]. split; [reflexivity|]. left. reflexivity.
Qed.

(** X2.  The listener of rpcdemo.js.  A POST is never answered: whatever its
    body, the exchange ends with a TypeError, [setEncoding] on the request
    and nothing on the response.  Any other request gets the greeting. *)
Theorem demo_listener_exchange :
  forall (JSON_parse : string -> option value) (ToNumber : string -> option Z)
         (http_method : string) (chunks : list string),
    server_listener JSON_parse ToNumber http_method chunks
    = if String.eqb http_method "POST"
      then {| fault := Some TypeError;
              to_request := [ SetEncoding "utf8" ];
              to_response := [] |}
      else {| fault := None;
              to_request := [];
              to_response := [ End (Some "Hello world!") ] |}.
Proof.
  intros JSON_parse ToNumber http_method chunks. unfold server_listener.
  destruct (String.eqb http_method "POST"); reflexivity.
Qed.

(** ** The body reader *)

Lemma string_app_nil_r (a : string) : (a ++ EmptyString)%string = a.
Proof. induction a as [|x a IH]; cbn; [reflexivity | now rewrite IH]. Qed.

Lemma fold_append_concat chunks :
  forall acc,
    fold_left append chunks acc
    = (acc ++ String.concat EmptyString chunks)%string.
Proof.
  induction chunks as [|x xs IH]; intros acc; cbn [fold_left].
  - cbn. now rewrite string_app_nil_r.
  - rewrite IH, string_app_assoc. f_equal.
    destruct xs as [|y ys]; cbn; [now rewrite string_app_nil_r | reflexivity].
Qed.

(** X3.  The listeners installed by [_handleRequestBody] do not depend on how
    the body is cut into chunks: at [end] the callback is called once, on
    what [JSON.parse] makes of the concatenation, and a SyntaxError is
    raised when there is nothing to make of it. *)
Theorem body_reader_ignores_chunking :
  forall (JSON_parse : string -> option value) (callback : value -> M unit)
         (s0 s : state) (l : listeners) (chunks : list string) (st : state),
    _handleRequestBody JSON_parse callback s0 = Returned l s ->
    emit chunks l st = emit [ String.concat EmptyString chunks ] l st
    /\ emit chunks l st
       = match JSON_parse (String.concat EmptyString chunks) with
         | Some json => callback json st
         | None => Raised SyntaxError st
         end.
Proof.
  intros JSON_parse callback s0 s l chunks st.
  unfold _handleRequestBody, bind, call_request, ret.
  destruct (this_request s0) eqn:Hr; [|discriminate].
  cbn [log_request this_request]. rewrite Hr.
  intros E. injection E as <- <-. unfold emit. cbn [on_end on_data].
  change (fun content chunk : string => (content ++ chunk)%string) with append.
  rewrite !fold_append_concat. cbn [String.concat append].
  split; [reflexivity|].
  destruct (JSON_parse (String.concat EmptyString chunks)); reflexivity.
Qed.

Lemma body_reader_ignores_chunking_witness :
  exists l s,
    _handleRequestBody json_parse handleRequest_callback
      (context ping_registry None) = Returned l s
    /\ (emit [ text "{'method':'mis"; text "sing','id':3}" ] l s
        = emit [ String.concat EmptyString
                   [ text "{'method':'mis"; text "sing','id':3}" ] ] l s
        /\ emit [ text "{'method':'mis"; text "sing','id':3}" ] l s
           = match json_parse
                     (String.concat EmptyString
                        [ text "{'method':'mis"; text "sing','id':3}" ]) with
             | Some json => handleRequest_callback json s
             | None => Raised SyntaxError s
             end).
Proof.
  eexists. eexists. split; [reflexivity|].
  eapply (body_reader_ignores_chunking json_parse handleRequest_callback
            (context ping_registry None)).
  reflexivity.
Defined.

(** ** The request callback on unusual bodies *)

(** X4.  A body that decodes to something other than an object or an array
    (a number, a string, a boolean, [null]) makes the callback throw a
    TypeError at ["id" in json]: the value is stored, nothing is sent. *)
Theorem callback_throws_on_primitive_body :
  forall (json : value) (s : state),
    is_primitive json = true ->
    handleRequest_callback json s = Raised TypeError (set_json json s)
    /\ response_calls (final_state (handleRequest_callback json s))
       = response_calls s.
Proof.
  intros json s Hp.
  assert (E : handleRequest_callback json s = Raised TypeError (set_json json s)).
  { destruct json; try discriminate; reflexivity. }
  split; [exact E | now rewrite E].
Qed.

Lemma callback_throws_on_primitive_body_witness :
  is_primitive (VNum 5) = true
  /\ (handleRequest_callback (VNum 5) (context ping_registry None)
      = Raised TypeError (set_json (VNum 5) (context ping_registry None))
      /\ response_calls
           (final_state
              (handleRequest_callback (VNum 5) (context ping_registry None)))
         = response_calls (context ping_registry None)).
Proof.
  split; [reflexivity|].
  apply callback_throws_on_primitive_body. reflexivity.
Defined.

(** What [error] sends for a non-empty message. *)
Lemma error_reply s msg :
  this_response s = Stream ->
  String.eqb msg EmptyString = false ->
  this_id s <> Some VUndefined ->
  exists s',
    error (VStr msg) s = Returned tt s'
    /\ response_calls s'
       = response_calls s
           ++ [ WriteHead 500 json_headers;
                End (expected_body (this_id s) "null" (quote msg)) ].
Proof.
  intros Hs Hmsg Hdef.
  destruct (finalize_spec (Fail (VStr msg)) s Hs) as (s' & Hrun & Hcalls & _).
  exists s'. split; [exact Hrun|]. rewrite Hcalls.
  cbn [writes_of truthy]. rewrite Hmsg. cbn [negb].
  destruct (this_id s) as [i|]; [|reflexivity]. cbn [expected_body].
  destruct (stringify i) as [si|] eqn:Hsi.
  - rewrite (stringify_object_envelope VNull (VStr msg) i
               "null" (quote msg) si eq_refl eq_refl Hsi).
    destruct i; try reflexivity; discriminate.
  - apply stringify_none in Hsi. congruence.
Qed.

(** X5.  A body that decodes to an array (a batch) has no [id] and no
    [method]: whatever the registry, the callback answers status 500 and
    ends the response without a body. *)
Theorem callback_refuses_array_body :
  forall (elems : list value) (s : state),
    this_response s = Stream ->
    this_id s = None ->
    exists s',
      handleRequest_callback (VArr elems) s = Returned tt s'
      /\ response_calls s'
         = response_calls s ++ [ WriteHead 500 json_headers; End None ].
Proof.
  intros elems s Hs Hid.
  unfold handleRequest_callback, bind at 1.
  rewrite (receive_without_id (VArr elems) s eq_refl). rewrite invoke_run.
  set (s1 := set_json (VArr elems) s).
  assert (Hs1 : this_response s1 = Stream) by exact Hs.
  assert (Hid1 : this_id s1 <> Some VUndefined).
  { unfold s1; cbn. rewrite Hid. discriminate. }
  assert (Hnone : this_id s1 = None) by exact Hid.
  destruct (truthy_registry (this_methods s1)) eqn:Ht.
  - assert (E : _run s1 = error (VStr "Invalid request method") s1).
    { unfold _run, bind at 1, read. rewrite Ht. cbn [negb].
      unfold bind at 1, read. unfold bind at 1.
      cbn [s1 set_json this_json get lift ret truthy negb].
      now rewrite invoke_error. }
    rewrite E.
    destruct (error_reply s1 "Invalid request method" Hs1 eq_refl Hid1)
      as (s' & Hrun & Hcalls).
    exists s'. split; [exact Hrun|]. rewrite Hcalls, Hnone. reflexivity.
  - rewrite (run_without_methods s1 Ht).
    destruct (error_reply s1 "No methods" Hs1 eq_refl Hid1)
      as (s' & Hrun & Hcalls).
    exists s'. split; [exact Hrun|]. rewrite Hcalls, Hnone. reflexivity.
Qed.

Lemma callback_refuses_array_body_witness :
  this_response (context ping_registry None) = Stream
  /\ this_id (context ping_registry None) = None
  /\ exists s',
       handleRequest_callback
         (VArr [ VObj [ ("method", VStr "ping"); ("id", VNum 1) ] ])
         (context ping_registry None)
       = Returned tt s'
       /\ response_calls s'
          = response_calls (context ping_registry None)
              ++ [ WriteHead 500 json_headers; End None ].
Proof.
  split; [reflexivity|]. split; [reflexivity|].
  apply callback_refuses_array_body; reflexivity.
Defined.

(** X6.  An absent registry ([null], or any other falsy value in the field) is
    reported before the method name is looked at: every decoded object,
    valid method or not, is answered by status 500 and the message
    "No methods", with the envelope's id when it has one other than
    [null] and without a body otherwise. *)
Theorem absent_registry_reported :
  forall (s : state) (ps : list (string * value)),
    this_response s = Stream ->
    truthy_registry (this_methods s) = false ->
    this_id s = None ->
    assoc "id" ps <> Some VUndefined ->
    exists s',
      handleRequest_callback (VObj ps) s = Returned tt s'
      /\ response_calls s'
         = response_calls s
             ++ [ WriteHead 500 json_headers;
                  End (expected_body (assoc "id" ps) "null"
                         (quote "No methods")) ].
Proof.
  intros s ps Hs Hreg Hid Hdef.
  unfold handleRequest_callback, bind at 1.
  destruct (assoc "id" ps) as [i|] eqn:Hi.
  - rewrite (receive_with_id ps i s Hi). rewrite invoke_run.
    rewrite run_without_methods by exact Hreg.
    destruct (error_reply (set_id i (set_json (VObj ps) s)) "No methods"
                Hs eq_refl) as (s' & Hrun & Hcalls).
    { cbn. congruence. }
    exists s'. split; [exact Hrun | exact Hcalls].
  - rewrite (receive_without_id (VObj ps) s); [|cbn; now rewrite Hi].
    rewrite invoke_run. rewrite run_without_methods by exact Hreg.
    destruct (error_reply (set_json (VObj ps) s) "No methods" Hs eq_refl)
      as (s' & Hrun & Hcalls).
    { cbn. rewrite Hid. discriminate. }
    exists s'. split; [exact Hrun|]. rewrite Hcalls. cbn. now rewrite Hid.
Qed.

Lemma absent_registry_reported_witness :
  this_response (context RegNull None) = Stream
  /\ truthy_registry (this_methods (context RegNull None)) = false
  /\ this_id (context RegNull None) = None
  /\ assoc "id" [ ("method", VStr "insert"); ("id", VNum 1) ] <> Some VUndefined
  /\ exists s',
       handleRequest_callback
         (VObj [ ("method", VStr "insert"); ("id", VNum 1) ])
         (context RegNull None)
       = Returned tt s'
       /\ response_calls s'
          = response_calls (context RegNull None)
              ++ [ WriteHead 500 json_headers;
                   End (expected_body
                          (assoc "id" [ ("method", VStr "insert"); ("id", VNum 1) ])
                          "null" (quote "No methods")) ].
Proof.
  split; [reflexivity|]. split; [reflexivity|]. split; [reflexivity|].
  split; [cbn; discriminate|].
  apply absent_registry_reported;
    [reflexivity|reflexivity|reflexivity|cbn; discriminate].
Defined.

(** ** Dispatch of a decoded object *)

Lemma receive_object ps s :
  exists s1,
    receive (VObj ps) s = Returned tt s1
    /\ this_json s1 = VObj ps
    /\ this_methods s1 = this_methods s
    /\ this_response s1 = this_response s
    /\ response_calls s1 = response_calls s
    /\ request_calls s1 = request_calls s.
Proof.
  destruct (assoc "id" ps) as [i|] eqn:Hi.
  - exists (set_id i (set_json (VObj ps) s)).
    split; [now apply receive_with_id | repeat split].
  - exists (set_json (VObj ps) s).
    split; [apply receive_without_id; cbn; now rewrite Hi | repeat split].
Qed.



(** X8.  While a decoded object is handled with an object registry, an
    exception leaves the callback in two ways only.  Either the [in] test
    fails to convert a truthy [method] to a property key (an object with a
    member [toString], or an array holding one): that TypeError leaves as
    it is.  Or something goes wrong inside the [try] block, in the
    dispatch expression or in the method itself: then what leaves is the
    ReferenceError on [rpcHandler], and the original fault and its message
    are lost. *)
Theorem faults_leaving_the_callback :
  forall (s : state) (props : list (string * entry)) (ps : list (string * value)),
    this_response s = Stream ->
    this_methods s = RegObj props ->
    forall e,
      raised (handleRequest_callback (VObj ps) s) = Some e ->
      e = ReferenceError "rpcHandler"
      \/ (e = TypeError
          /\ truthy (method_of ps) = true
          /\ to_string (method_of ps) = None).
Proof.
  intros s props ps Hs Hreg e.
  destruct (receive_object ps s) as (s1 & Hrec & Hj & Hm & Hs1 & _).
  rewrite Hs in Hs1. rewrite Hreg in Hm.
  unfold handleRequest_callback, bind. rewrite Hrec, invoke_run.
  unfold _run, bind at 1, read. rewrite Hm. cbn [truthy_registry negb].
  unfold bind at 1, read. unfold bind at 1. rewrite Hj.
  cbn [get lift ret]. fold (method_of ps).
  assert (Herr : forall msg, raised (invoke "error" (error msg) s1) = Some e -> False).
  { intros msg. rewrite invoke_error.
    destruct (finalize_spec (Fail msg) s1 Hs1) as (s' & Hrun & _).
    cbn [finalize] in Hrun. rewrite Hrun. discriminate. }
  destruct (truthy (method_of ps)) eqn:Ht; cbn [negb].
  2:{ intros H. destruct (Herr _ H). }
  unfold bind at 1.
  destruct (to_string (method_of ps)) as [key|] eqn:Hkey; cbn [convert throw ret].
  2:{ cbn [raised]. intros H. injection H as <-. right. repeat split. }
  destruct (_ || _).
  { intros H. destruct (Herr _ H). }
  unfold try_catch. destruct (dispatch props s1); cbn [raised throw].
  - discriminate.
  - intros H. injection H as <-. now left.
Qed.

Lemma faults_leaving_the_callback_witness :
  this_response (new_object Stream Stream boom_registry_reached (VBool true))
  = Stream
  /\ this_methods (new_object Stream Stream boom_registry_reached (VBool true))
     = RegObj [ ("boom", EFun boom);
                ("[object Object]", EObj [ ("method", EFun boom) ]) ]
  /\ forall e,
       raised (handleRequest_callback boom_request
                 (new_object Stream Stream boom_registry_reached (VBool true)))
       = Some e ->
       e = ReferenceError "rpcHandler"
       \/ (e = TypeError
           /\ truthy (method_of [ ("jsonrpc", VStr "2.0");
                                  ("method", VStr "boom"); ("id", VNum 7) ])
              = true
           /\ to_string (method_of [ ("jsonrpc", VStr "2.0");
                                     ("method", VStr "boom"); ("id", VNum 7) ])
              = None).
Proof.
  split; [reflexivity|]. split; [reflexivity|].
  apply (faults_leaving_the_callback _
           [ ("boom", EFun boom);
             ("[object Object]", EObj [ ("method", EFun boom) ]) ]);
    reflexivity.
Defined.

(** ** What the callback can send *)

Lemma only_failures_refl s : only_failures s s.
Proof.
  split; [reflexivity|]. split; [reflexivity|].
  exists []. cbn. now rewrite app_nil_r.
Qed.

Lemma only_failures_trans s1 s2 s3 :
  only_failures s1 s2 -> only_failures s2 s3 -> only_failures s1 s3.
Proof.
  intros (Hid1 & Hr1 & m1 & E1) (Hid2 & Hr2 & m2 & E2).
  split; [congruence|]. split; [congruence|].
  exists (m1 ++ m2). unfold failures in *.
  rewrite E2, E1, Hid1, flat_map_app. now rewrite app_assoc.
Qed.

Lemma only_failures_bind {A B} (c : M A) (k : A -> M B) s :
  only_failures s (final_state (c s)) ->
  (forall a s1, c s = Returned a s1 -> only_failures s1 (final_state (k a s1))) ->
  only_failures s (final_state (bind c k s)).
Proof.
  intros Hc Hk. unfold bind. destruct (c s) as [a s1|e s1] eqn:E.
  - eapply only_failures_trans; [exact Hc | now apply Hk].
  - exact Hc.
Qed.

Lemma error_only_failures m s : only_failures s (final_state (error m s)).
Proof.
  destruct (this_response s) as [|v] eqn:Hr.
  - destruct (finalize_spec (Fail m) s Hr) as (s' & Hrun & Hcalls & Hr' & Hid).
    cbn [finalize] in Hrun. rewrite Hrun. cbn [final_state].
    split; [exact Hid|]. split; [congruence|].
    exists [m]. unfold failures. cbn [flat_map]. now rewrite app_nil_r.
  - assert (E : error m s = Raised TypeError s).
    { unfold error, bind. rewrite invoke_output.
      unfold _output, bind, call_response. now rewrite Hr. }
    rewrite E. apply only_failures_refl.
Qed.

Lemma invoke_only_failures {A} name (body : M A) s :
  only_failures s (final_state (body s)) ->
  only_failures s (final_state (invoke name body s)).
Proof.
  intros H. unfold invoke.
  destruct (resolve s name); [apply only_failures_refl | exact H | apply only_failures_refl].
Qed.

Lemma run_script_only_failures p :
  forall s, only_failures s (final_state (run_script p s)).
Proof.
  induction p as [|e|x next IH|m next IH]; intros s; cbn [run_script].
  - apply only_failures_refl.
  - apply only_failures_refl.
  - unfold bind. rewrite invoke_response. apply only_failures_refl.
  - apply only_failures_bind.
    + apply invoke_only_failures, error_only_failures.
    + intros _ s1 _. apply IH.
Qed.

Lemma run_only_failures s : only_failures s (final_state (_run s)).
Proof.
  unfold _run, bind at 1, read.
  destruct (truthy_registry (this_methods s)); cbn [negb].
  2:{ apply invoke_only_failures, error_only_failures. }
  unfold bind at 1, read. unfold bind at 1, lift.
  destruct (get (this_json s) "method") as [e|m]; cbn [throw ret];
    [apply only_failures_refl|].
  destruct (truthy m); cbn [negb].
  2:{ apply invoke_only_failures, error_only_failures. }
  destruct (this_methods s) as [| | | | |props]; try apply only_failures_refl.
  unfold bind at 1, convert.
  destruct (to_string m) as [key|]; cbn [throw ret];
    [|apply only_failures_refl].
  destruct (_ || _).
  - apply invoke_only_failures, error_only_failures.
  - assert (H : only_failures s (final_state (dispatch props s))).
    { unfold dispatch, bind at 1, read.
      unfold bind at 1, convert.
      destruct (to_string (this_json s)) as [jkey|]; cbn [throw ret];
        [|apply only_failures_refl].
      destruct (method_member _) as [f|]; [|apply only_failures_refl].
      unfold bind, lift.
      destruct (get (this_json s) "params") as [e|params]; cbn;
        [apply only_failures_refl | apply run_script_only_failures]. }
    unfold try_catch. destruct (dispatch props s); exact H.
Qed.

Lemma receive_response_calls json s :
  response_calls (final_state (receive json s)) = response_calls s.
Proof.
  unfold receive, bind, modify, lift.
  destruct (has "id" json) as [e|[|]]; cbn; try reflexivity.
  destruct (get json "id"); reflexivity.
Qed.

(** X9.  The callback never delivers a result.  Whatever the decoded body, the
    registry and the methods in it, everything the callback sends is what
    [error] sends, for a series of messages in turn: status lines 500 (200
    for a falsy message) each followed by an [end] that carries the
    handler's id and a [result] of [null] ([false] for a falsy message), or
    no body without an id. *)
Theorem callback_sends_only_failures :
  forall (json : value) (s : state),
    exists messages,
      response_calls (final_state (handleRequest_callback json s))
      = response_calls s
          ++ failures (this_id (final_state (handleRequest_callback json s)))
                      messages.
Proof.
  intros json s. unfold handleRequest_callback, bind.
  pose proof (receive_response_calls json s) as Hrec.
  destruct (receive json s) as [[] s1|e s1]; cbn [final_state] in *.
  - assert (H : only_failures s1 (final_state (invoke "_run" _run s1))).
    { apply invoke_only_failures, run_only_failures. }
    destruct H as (Hid & _ & messages & E).
    exists messages. now rewrite E, Hid, Hrec.
  - exists []. cbn. now rewrite app_nil_r.
Qed.

(** ** The status line and the body agree *)

Lemma output_value result err s :
  this_response s = Stream ->
  _output result err s
  = Returned
      (match this_id s with
       | None | Some VNull => false
       | Some _ => true
       end)
      (log_response
         (End (match this_id s with
               | None | Some VNull => None
               | Some i =>
                   Some (stringify_object
                           [ ("result", if truthy err then VNull else result);
                             ("error", if truthy err then err else VNull);
                             ("id", i) ])
               end))
         (log_response
            (WriteHead (if truthy err then 500 else 200) json_headers) s)).
Proof.
  intros Hs. unfold _output, bind, call_response, read, ret.
  rewrite Hs. cbn [this_response log_response this_id].
  destruct (this_id s) as [i|]; [destruct i|]; cbn; rewrite Hs; reflexivity.
Qed.

(** X10.  One call of [_output] on an http response sends one status line, 200
    or 500, and one [end].  It returns [true] exactly when the [end] has a
    body; the status is 500 exactly when the [error] argument is truthy;
    and in a body at most one of [result] and [error] is not [null], the
    [error] member being [null] exactly under status 200. *)
Theorem output_status_and_body_agree :
  forall (result err : value) (s : state),
    this_response s = Stream ->
    exists b s' status body,
      _output result err s = Returned b s'
      /\ response_calls s'
         = response_calls s ++ [ WriteHead status json_headers; End body ]
      /\ (status = 200 \/ status = 500)
      /\ (status = 500 <-> truthy err = true)
      /\ (b = true <-> body <> None)
      /\ (body <> None <-> exists i, this_id s = Some i /\ i <> VNull)
      /\ (forall i, this_id s = Some i -> i <> VNull ->
          exists r e,
            body = Some (stringify_object
                           [ ("result", r); ("error", e); ("id", i) ])
            /\ (r = VNull \/ e = VNull)
            /\ (e = VNull <-> status = 200)).
Proof.
  intros result err s Hs. rewrite (output_value result err s Hs).
  eexists. eexists. exists (if truthy err then 500 else 200).
  eexists. split; [reflexivity|].
  split; [cbn; now rewrite <- app_assoc|].
  split; [destruct (truthy err); auto|].
  split; [destruct (truthy err); split; intros; congruence|].
  destruct (this_id s) as [i|] eqn:Hid; cbv beta iota.
  - destruct i.
    2:{ split; [split; [discriminate | congruence]|].
        split; [split; [congruence | intros (j & Hj & Hnj); congruence]|].
        intros j Hj Hnj. congruence. }
    all: split; [split; [intros _; discriminate | intros _; reflexivity]|].
    all: split; [split; [intros _; eexists; split; [reflexivity | discriminate]
                        | intros _; discriminate]|].
    all: intros j Hj Hnj; injection Hj as <-.
    all: eexists; eexists; split; [reflexivity|].
    all: destruct (truthy err) eqn:Ht;
      [ split; [now left | split; [intros ->; discriminate | discriminate]]
      | split; [now right | split; reflexivity] ].
  - split; [split; [discriminate | congruence]|].
    split; [split; [congruence | intros (j & Hj & _); discriminate]|].
    intros j Hj. discriminate.
Qed.

Lemma output_status_and_body_agree_witness :
  this_response (context RegNull (Some (VNum 1))) = Stream
  /\ exists b s' status body,
       _output (VStr "done") (VStr "failed") (context RegNull (Some (VNum 1)))
       = Returned b s'
       /\ response_calls s'
          = response_calls (context RegNull (Some (VNum 1)))
              ++ [ WriteHead status json_headers; End body ]
       /\ (status = 200 \/ status = 500)
       /\ (status = 500 <-> truthy (VStr "failed") = true)
       /\ (b = true <-> body <> None)
       /\ (body <> None
           <-> exists i,
                 this_id (context RegNull (Some (VNum 1))) = Some i /\ i <> VNull)
       /\ (forall i,
              this_id (context RegNull (Some (VNum 1))) = Some i -> i <> VNull ->
              exists r e,
                body = Some (stringify_object
                               [ ("result", r); ("error", e); ("id", i) ])
                /\ (r = VNull \/ e = VNull)
                /\ (e = VNull <-> status = 200)).
Proof.
  split; [reflexivity|].
  apply output_status_and_body_agree. reflexivity.
Defined.

(* ===================================================================== *)
(** * Further properties of the demo method *)
(* ===================================================================== *)

Lemma insert_script_cases ToNumber v args :
  insert ToNumber v args = Throw TypeError
  \/ insert ToNumber v args = params_ok
  \/ insert ToNumber v args = params_mismatch.
Proof.
  unfold insert, params_ok, params_mismatch.
  destruct (index args 0) as [e0|a] eqn:E0.
  { left. destruct args; try discriminate; now injection E0 as <-. }
  destruct (index args 1) as [e1|b] eqn:E1.
  { left. destruct args; try discriminate; now injection E1 as <-. }
  destruct (loose_eq ToNumber a b) as [[|]|]; cbn [negb]; auto.
Qed.

(** X11.  [insert] calls at most one of the two members, once, and then
    returns; otherwise it throws a TypeError before any call.  It throws
    whenever it was given no parameters at all ([params] missing or
    [null]), and whenever an object with a member [toString] is compared
    with a string; it never throws when the two compared parameters are
    primitives. *)
Theorem insert_calls_at_most_one_member :
  forall (ToNumber : string -> option Z) (v : rpc_view) (args : value),
    (insert ToNumber v args = Throw TypeError
     \/ insert ToNumber v args = params_ok
     \/ insert ToNumber v args = params_mismatch)
    /\ (is_nullish args = true -> insert ToNumber v args = Throw TypeError)
    /\ (forall a b,
           index args 0 = inr a -> index args 1 = inr b ->
           is_primitive a = true -> is_primitive b = true ->
           insert ToNumber v args <> Throw TypeError)
    /\ (forall ps x str rest,
           args = VArr (VObj ps :: VStr str :: rest) ->
           assoc "toString" ps = Some x ->
           insert ToNumber v args = Throw TypeError).
Proof.
  intros ToNumber v args. split; [|split; [|split]].
  - unfold insert, params_ok, params_mismatch.
    destruct (index args 0) as [e0|a] eqn:E0.
    { left. destruct args; try discriminate; now injection E0 as <-. }
    destruct (index args 1) as [e1|b] eqn:E1.
    { left. destruct args; try discriminate; now injection E1 as <-. }
    destruct (loose_eq ToNumber a b) as [[|]|]; cbn [negb]; auto.
  - intros Hn. destruct args; try discriminate; reflexivity.
  - intros a b E0 E1 Ha Hb. unfold insert. rewrite E0, E1.
    assert (E : exists equal, loose_eq ToNumber a b = Some equal).
    { destruct a; try discriminate; destruct b; try discriminate;
        cbn; eauto. }
    destruct E as [equal ->]. destruct equal; discriminate.
  - intros ps x str rest -> Hts. unfold insert. cbn [index nth].
    cbn [loose_eq to_primitive to_string]. rewrite Hts. reflexivity.
Qed.

(** X12.  On two strings [insert] compares the texts, character by character;
    further parameters are ignored. *)
Theorem insert_compares_strings :
  forall (ToNumber : string -> option Z) (v : rpc_view)
         (a b : string) (rest : list value),
    insert ToNumber v (VArr (VStr a :: VStr b :: rest))
    = if String.eqb a b then params_ok else params_mismatch.
Proof.
  intros ToNumber v a b rest. unfold insert. cbn.
  destruct (String.eqb a b); reflexivity.
Qed.

(** X13.  Parameters that are not there read as [undefined]: an empty array
    passes as a match, and a single parameter matches exactly when it is
    [null] (or [undefined]). *)
Theorem insert_missing_parameters :
  forall (ToNumber : string -> option Z) (v : rpc_view),
    insert ToNumber v (VArr []) = params_ok
    /\ forall x,
         insert ToNumber v (VArr [ x ])
         = if is_nullish x then params_ok else params_mismatch.
Proof.
  intros ToNumber v. split; [reflexivity|].
  intros x. destruct x; reflexivity.
Qed.

(** X14.  Run against a handler object, [insert] can only deliver its error.
    When the parameters differ, the answer is status 500 with the message
    of the mismatch; in every other case ([rpc.response] being the http
    object, the parameters missing, or the comparison itself failing) a
    TypeError is raised and nothing is sent. *)
Theorem insert_delivers_only_the_mismatch :
  forall (ToNumber : string -> option Z) (args : value) (s : state),
    this_response s = Stream ->
    (insert ToNumber (view s) args = params_mismatch
     /\ exists s',
          run_script (insert ToNumber (view s) args) s = Returned tt s'
          /\ response_calls s'
             = response_calls s
                 ++ writes_of (this_id s) (Fail (VStr "Params doesn't match!")))
    \/ (insert ToNumber (view s) args <> params_mismatch
        /\ run_script (insert ToNumber (view s) args) s = Raised TypeError s).
Proof.
  intros ToNumber args s Hs.
  destruct (insert_script_cases ToNumber (view s) args)
    as [E|[E|E]]; rewrite E.
  - right. split; [discriminate | reflexivity].
  - right. split; [discriminate | reflexivity].
  - left. split; [reflexivity|].
    destruct (finalize_spec (Fail (VStr "Params doesn't match!")) s Hs)
      as (s' & Hrun & Hcalls & _).
    exists s'. split; [|exact Hcalls].
    unfold params_mismatch. cbn [run_script]. unfold bind.
    rewrite invoke_error. cbn [finalize] in Hrun. now rewrite Hrun.
Qed.

Lemma insert_delivers_only_the_mismatch_witness :
  this_response (context RegNull (Some (VNum 2))) = Stream
  /\ ((insert (fun _ => None) (view (context RegNull (Some (VNum 2))))
              (VArr [ VStr "v"; VStr "w" ])
       = params_mismatch
       /\ exists s',
            run_script
              (insert (fun _ => None) (view (context RegNull (Some (VNum 2))))
                      (VArr [ VStr "v"; VStr "w" ]))
              (context RegNull (Some (VNum 2)))
            = Returned tt s'
            /\ response_calls s'
               = response_calls (context RegNull (Some (VNum 2)))
                   ++ writes_of (this_id (context RegNull (Some (VNum 2))))
                                (Fail (VStr "Params doesn't match!")))
      \/ (insert (fun _ => None) (view (context RegNull (Some (VNum 2))))
                 (VArr [ VStr "v"; VStr "w" ])
          <> params_mismatch
          /\ run_script
               (insert (fun _ => None) (view (context RegNull (Some (VNum 2))))
                       (VArr [ VStr "v"; VStr "w" ]))
               (context RegNull (Some (VNum 2)))
             = Raised TypeError (context RegNull (Some (VNum 2))))).
Proof.
  split; [reflexivity|].
  apply insert_delivers_only_the_mismatch. reflexivity.
Defined.

(** The second scenario of the sample traffic, on the member level: the
    mismatch is answered by status 500 and the documented body. *)
Example insert_mismatch_reply :
  writes_of (Some (VNum 2)) (Fail (VStr "Params doesn't match!"))
  = [ WriteHead 500 json_headers;
      End (Some (envelope_text "null" (quote "Params doesn't match!") "2")) ].
Proof. vm_compute. reflexivity. Qed.

(* ===================================================================== *)
(** * Further properties of the failure member *)
(* ===================================================================== *)

(** X15.  Once the decoded envelope carries an id other than [null], the member
    [error], called with a truthy message [m], issues exactly
    [writeHead(500, ...)] and one [end] whose body is
    [{"result":null,"error":m,"id":id}], the message serialized as it is
    (a string in quotes, any other value as JSON). *)
Theorem error_shape :
  forall (s : state) (ps : list (string * value)) (i m : value) (sm si : string),
    this_response s = Stream ->
    assoc "id" ps = Some i ->
    i <> VNull ->
    stringify i = Some si ->
    truthy m = true ->
    stringify m = Some sm ->
    exists s',
      (receive (VObj ps) ;; error m) s = Returned tt s'
      /\ response_calls s'
         = response_calls s
             ++ [ WriteHead 500 json_headers;
                  End (Some (envelope_text "null" sm si)) ].
Proof.
  intros s ps i m sm si Hs Hid Hnull Hsi Ht Hsm.
  unfold bind at 1. rewrite (receive_with_id ps i s Hid).
  destruct (finalize_spec (Fail m) (set_id i (set_json (VObj ps) s)) Hs)
    as (s' & Hrun & Hcalls & _).
  exists s'. split; [exact Hrun|].
  rewrite Hcalls. cbn [writes_of set_id set_json this_id response_calls].
  rewrite Ht.
  rewrite (stringify_object_envelope VNull m i "null" sm si eq_refl Hsm Hsi).
  destruct i; congruence.
Qed.

Lemma error_shape_witness :
  this_response (context ping_registry None) = Stream
  /\ assoc "id" [ ("method", VStr "ping"); ("id", VStr "a7") ] = Some (VStr "a7")
  /\ VStr "a7" <> VNull
  /\ stringify (VStr "a7") = Some (text "'a7'")
  /\ truthy (VStr "no such thing") = true
  /\ stringify (VStr "no such thing") = Some (text "'no such thing'")
  /\ exists s',
       (receive (VObj [ ("method", VStr "ping"); ("id", VStr "a7") ]) ;;
        error (VStr "no such thing")) (context ping_registry None)
       = Returned tt s'
       /\ response_calls s'
          = response_calls (context ping_registry None)
              ++ [ WriteHead 500 json_headers;
                   End (Some (envelope_text "null" (text "'no such thing'")
                                (text "'a7'"))) ].
Proof.
  split; [reflexivity|]. split; [reflexivity|]. split; [discriminate|].
  split; [reflexivity|]. split; [reflexivity|]. split; [reflexivity|].
  apply (error_shape _ _ (VStr "a7"));
    [reflexivity|reflexivity|discriminate|reflexivity|reflexivity|reflexivity].
Defined.

Lemma failures_without_body id messages :
  id = None \/ id = Some VNull ->
  Forall (fun c => has_body c = false) (failures id messages).
Proof.
  intros Hid. unfold failures.
  induction messages as [|m rest IH]; cbn [flat_map]; [constructor|].
  apply Forall_app. split; [|exact IH].
  destruct Hid as [->| ->]; cbn [writes_of];
    repeat constructor.
Qed.

(** X16.  An envelope whose id is [null] is a notification too: whatever the
    callback does with it, no call it issues on the response object
    carries a body. *)
Theorem null_id_is_a_notification :
  forall (ps : list (string * value)) (s : state),
    assoc "id" ps = Some VNull ->
    exists sent,
      response_calls (final_state (handleRequest_callback (VObj ps) s))
      = response_calls s ++ sent
      /\ Forall (fun c => has_body c = false) sent.
Proof.
  intros ps s Hid. unfold handleRequest_callback, bind.
  rewrite (receive_with_id ps VNull s Hid).
  assert (H : only_failures (set_id VNull (set_json (VObj ps) s))
                (final_state
                   (invoke "_run" _run (set_id VNull (set_json (VObj ps) s))))).
  { apply invoke_only_failures, run_only_failures. }
  destruct H as (_ & _ & messages & E).
  exists (failures (Some VNull) messages). split; [exact E|].
  apply failures_without_body. now right.
Qed.

Lemma null_id_is_a_notification_witness :
  assoc "id" [ ("method", VStr "missing"); ("id", VNull) ] = Some VNull
  /\ exists sent,
       response_calls
         (final_state
            (handleRequest_callback
               (VObj [ ("method", VStr "missing"); ("id", VNull) ])
               (context ping_registry None)))
       = response_calls (context ping_registry None) ++ sent
       /\ Forall (fun c => has_body c = false) sent.
Proof.
  split; [reflexivity|].
  apply null_id_is_a_notification. reflexivity.
Defined.
